(** * Comment-analysis dashboard (st.py): loading, filtering and aggregation

    A shallow embedding of the data handling of [st.py]: the filter applied to
    the uploaded table ([display_analysis_results], lines 154-159), the
    sentiment summary computed for a CSV upload ([main], lines 341-350), the
    word-frequency table (lines 233-241), the score statistics (line 264),
    the CSV export and re-load (lines 294 and 331) and the error handling of
    [main] (lines 318-361).

    Numbers are binary64 floats, as in Python and in a pandas [float64]
    column: Rocq's primitive floats, whose NaN is the missing value of
    pandas.  Texts are strings of 8-bit characters; lower-casing and
    whitespace are those of Python on the ASCII range.  Python exceptions
    are the [Raise] results of the [result] type.

    The functions of pandas and of Python the script calls ([isin],
    [unique], [value_counts], [describe], [to_csv], [read_csv], [split],
    [join], [lower]) are modelled after their documented behaviour at the
    arguments the script passes; the decimal text of a float and its
    reading are parameters. *)

From Stdlib Require Import List String Ascii Bool Arith ZArith Lia Permutation.
From Stdlib Require Import Sorted.
From Stdlib Require Import Floats Uint63 QArith DecimalString.
Import ListNotations.

#[local] Set Warnings "-inexact-float".

Local Open Scope nat_scope.
Local Open Scope string_scope.
Local Open Scope list_scope.

(** ** Exceptions and results *)

Inductive exn : Type :=
| TypeError (msg : string)
| KeyError (key : string)
| ZeroDivisionError (msg : string)
| JSONDecodeError (msg : string)
| EmptyDataError (msg : string)
| ParserError (msg : string).

(** [str(e)] of the exception, the text the [except] branches of [main] show. *)
Definition str_exn (e : exn) : string :=
  match e with
  | TypeError msg => msg
  | KeyError key => "'" ++ key ++ "'"
  | ZeroDivisionError msg => msg
  | JSONDecodeError msg => msg
  | EmptyDataError msg => msg
  | ParserError msg => msg
  end.

Inductive result (A : Type) : Type :=
| Ok (a : A)
| Raise (e : exn).

Arguments Ok {A} a.
Arguments Raise {A} e.

Definition bind {A B : Type} (r : result A) (k : A -> result B) : result B :=
  match r with
  | Ok a => k a
  | Raise e => Raise e
  end.

Notation "x <- r ;; k" := (bind r (fun x => k))
  (at level 61, r at next level, right associativity).

Fixpoint mapM {A B : Type} (f : A -> result B) (l : list A) : result (list B) :=
  match l with
  | [] => Ok []
  | a :: l' => b <- f a ;; bs <- mapM f l' ;; Ok (b :: bs)
  end.

(** ** Cells, rows and tables *)

(** A cell of a DataFrame: a text or a binary64 number.  A missing cell is
    the float NaN, as in pandas. *)
Inductive value : Type :=
| Str (s : string)
| Num (x : float).

Definition NaN : value := Num nan.

Definition isna (v : value) : bool :=
  match v with
  | Str _ => false
  | Num x => is_nan x
  end.

(** Equality of cells as the hash tables of pandas see it ([isin], [unique],
    [value_counts]): two missing cells are the same key. *)
Definition value_eqb (v w : value) : bool :=
  match v, w with
  | Str s, Str t => String.eqb s t
  | Num x, Num y => (is_nan x && is_nan y) || PrimFloat.eqb x y
  | _, _ => false
  end.

Definition Row : Type := list value.

(** A DataFrame: the column names, in file order, and the rows, in file
    order; the cell of column number [i] of a row is its [i]-th element. *)
Record DataFrame : Type := mkDataFrame {
  columns : list string;
  data : list Row
}.

(** [len(df)] *)
Definition len (df : DataFrame) : nat := List.length (data df).

(** Position of a column name in [df.columns]; [name in df.columns] is
    [column_index name (columns df) <> None]. *)
Fixpoint column_index (name : string) (cols : list string) : option nat :=
  match cols with
  | [] => None
  | c :: cols' =>
      if String.eqb c name then Some 0
      else option_map S (column_index name cols')
  end.

Definition cell (i : nat) (r : Row) : value := nth i r NaN.

(** [df[name]] for the column at position [i]: one cell per row. *)
Definition series (i : nat) (rows : list Row) : list value := map (cell i) rows.

(** [df[mask]]: the rows whose mask entry is [True], in order. *)
Fixpoint boolean_index {A : Type} (mask : list bool) (rows : list A) : list A :=
  match mask, rows with
  | b :: mask', r :: rows' =>
      if b then r :: boolean_index mask' rows' else boolean_index mask' rows'
  | _, _ => []
  end.

(** [Series.isin(values)] on one cell. *)
Definition isin (values : list value) (v : value) : bool :=
  existsb (value_eqb v) values.

(** [Series.unique()]: the distinct cells in order of first appearance, a
    missing cell included. *)
Fixpoint unique_acc (seen : list value) (l : list value) : list value :=
  match l with
  | [] => []
  | v :: l' =>
      if isin seen v then unique_acc seen l'
      else v :: unique_acc (v :: seen) l'
  end.

Definition unique (l : list value) : list value := unique_acc [] l.

(** [cell >= min_confidence] on one cell: a float comparison, false on NaN;
    Python raises [TypeError] when the cell is a text. *)
Definition ge_scalar (min_confidence : float) (v : value) : result bool :=
  match v with
  | Num x => Ok (PrimFloat.leb min_confidence x)
  | Str _ =>
      Raise (TypeError "'>=' not supported between instances of 'str' and 'float'")
  end.

(** ** The filter of [display_analysis_results] (lines 154-159) *)

(** The multiselect's default (lines 133-140): every distinct label when the
    table has a [sentiment_label] column, [None] otherwise. *)
Definition default_sentiment_filter (df : DataFrame) : option (list value) :=
  match column_index "sentiment_label" (columns df) with
  | Some i => Some (unique (series i (data df)))
  | None => None
  end.

(** Lines 156-157: the label criterion, applied when the selection is
    truthy (neither [None] nor the empty list) and the column exists. *)
Definition filter_by_label (df : DataFrame) (sentiment_filter : option (list value))
  : list Row :=
  match sentiment_filter, column_index "sentiment_label" (columns df) with
  | Some (l :: sel), Some i =>
      boolean_index (map (isin (l :: sel)) (series i (data df))) (data df)
  | _, _ => data df
  end.

(** Lines 155-159. *)
Definition apply_filters (df : DataFrame) (sentiment_filter : option (list value))
    (min_confidence : float) : result DataFrame :=
  let filtered_df := filter_by_label df sentiment_filter in
  match column_index "sentiment_score" (columns df) with
  | Some j =>
      mask <- mapM (ge_scalar min_confidence) (series j filtered_df) ;;
      Ok (mkDataFrame (columns df) (boolean_index mask filtered_df))
  | None => Ok (mkDataFrame (columns df) filtered_df)
  end.

(** The row predicates the two criteria compute, cell by cell. *)

Definition numeric (v : value) : bool :=
  match v with
  | Num _ => true
  | Str _ => false
  end.

Definition above_threshold (min_confidence : float) (v : value) : bool :=
  match v with
  | Num x => PrimFloat.leb min_confidence x
  | Str _ => false
  end.

Definition label_selected (cols : list string) (sentiment_filter : option (list value))
    (r : Row) : bool :=
  match sentiment_filter, column_index "sentiment_label" cols with
  | Some (l :: sel), Some i => isin (l :: sel) (cell i r)
  | _, _ => true
  end.

Definition score_passes (cols : list string) (min_confidence : float) (r : Row) : bool :=
  match column_index "sentiment_score" cols with
  | Some j => above_threshold min_confidence (cell j r)
  | None => true
  end.

(** The score column, when there is one, holds numbers only (a [float64]
    column, missing cells included). *)
Definition float_scores (df : DataFrame) : bool :=
  match column_index "sentiment_score" (columns df) with
  | Some j => forallb numeric (series j (data df))
  | None => true
  end.

(** *** Example tables *)

Definition sample_columns : list string :=
  ["comment"; "sentiment_label"; "sentiment_score"; "summary"].

(** The sample table of the welcome screen (lines 406-419). *)
Definition sample_data : DataFrame :=
  mkDataFrame sample_columns
    [ [Str "This product is amazing! Highly recommend it."; Str "POSITIVE";
       Num 0.995%float; Str "Product is amazing and recommended."];
      [Str "Not satisfied with the quality. Could be better."; Str "NEGATIVE";
       Num 0.892%float; Str "Quality not satisfactory, needs improvement."];
      [Str "Great customer service and fast delivery."; Str "POSITIVE";
       Num 0.967%float; Str "Great service and fast delivery."] ].

(** The sample table with the score of its second row missing. *)
Definition sample_missing_score : DataFrame :=
  mkDataFrame sample_columns
    [ [Str "This product is amazing! Highly recommend it."; Str "POSITIVE";
       Num 0.995%float; Str "Product is amazing and recommended."];
      [Str "Not satisfied with the quality. Could be better."; Str "NEGATIVE";
       NaN; Str "Quality not satisfactory, needs improvement."] ].

(** ** Counting values: [Series.value_counts] and [Series.get] *)

Section ValueCounts.

Context {K : Type} (eqb : K -> K -> bool).

(** One step of the hash-table pass: the count of the key of [k] goes
    up by one; a new key is appended, so keys stay in order of first
    appearance. *)
Fixpoint incr (k : K) (t : list (K * nat)) : list (K * nat) :=
  match t with
  | [] => [(k, 1)]
  | (k', n) :: t' =>
      if eqb k' k then (k', S n) :: t' else (k', n) :: incr k t'
  end.

Definition tally (l : list K) : list (K * nat) :=
  fold_left (fun t k => incr k t) l [].

(** Sorting by descending count.  pandas leaves the order among equal
    counts open; here the key seen first stays first. *)
Fixpoint insert_desc (e : K * nat) (t : list (K * nat)) : list (K * nat) :=
  match t with
  | [] => [e]
  | e' :: t' =>
      if Nat.leb (snd e') (snd e) then e :: e' :: t' else e' :: insert_desc e t'
  end.

Definition sort_desc (t : list (K * nat)) : list (K * nat) :=
  fold_right insert_desc [] t.

(** [pd.Series(l).value_counts()] on a list without missing values. *)
Definition value_counts (l : list K) : list (K * nat) :=
  sort_desc (tally l).

(** The entry of a key in a table of counts. *)
Definition entry (q : K) (t : list (K * nat)) : option (K * nat) :=
  find (fun e => eqb (fst e) q) t.

(** The number of elements of a list that are the key [q]. *)
Definition count (q : K) (l : list K) : nat :=
  List.length (filter (fun k => eqb k q) l).

(** The entries of a table under the key [q]. *)
Definition matches (q : K) (t : list (K * nat)) : list (K * nat) :=
  filter (fun e => eqb (fst e) q) t.

(** The table holds [c] under [q]: no entry when [c] is 0, the single
    entry [(q, c)] otherwise. *)
Definition holds (q : K) (t : list (K * nat)) (c : nat) : Prop :=
  matches q t = match c with 0 => [] | S _ => [(q, c)] end.

End ValueCounts.

(** [df[label].value_counts()]: missing labels are not counted
    ([dropna=True]). *)
Definition label_counts (labels : list value) : list (value * nat) :=
  value_counts value_eqb (filter (fun v => negb (isna v)) labels).

(** A count as Python sees it: an [int64] of numpy read off the counts, or
    the plain [int] given as the default of [get]. *)
Inductive counted : Type :=
| NpInt (n : nat)
| PyInt (n : nat).

(** [sentiment_counts.get(key, default)] *)
Definition get (sentiment_counts : list (value * nat)) (key : string)
    (default : counted) : counted :=
  match entry value_eqb (Str key) sentiment_counts with
  | Some e => NpInt (snd e)
  | None => default
  end.

(** The float of a count: exact below 2^53 (the conversion goes through a
    63-bit integer, enough for the length of a table). *)
Definition float_of_nat (n : nat) : float :=
  PrimFloat.of_uint63 (Uint63.of_Z (Z.of_nat n)).

(** [c / total]: Python raises on a division of two of its own integers by
    zero; a numpy integer divides as a float. *)
Definition true_divide (c : counted) (total : nat) : result float :=
  match c with
  | NpInt n => Ok (float_of_nat n / float_of_nat total)%float
  | PyInt n =>
      if Nat.eqb total 0 then Raise (ZeroDivisionError "division by zero")
      else Ok (float_of_nat n / float_of_nat total)%float
  end.

(** [(sentiment_counts.get(upper, sentiment_counts.get(lower, 0)) / total) * 100]
    (lines 348 and 349). *)
Definition label_percentage (sentiment_counts : list (value * nat))
    (upper lower : string) (total : nat) : result float :=
  ratio <- true_divide (get sentiment_counts upper (get sentiment_counts lower (PyInt 0)))
             total ;;
  Ok (ratio * 100)%float.

(** [Series.mean()] of a column: the mean of the cells that are not missing,
    NaN when there is none; a text cell raises.  The sum is taken from left
    to right. *)
Fixpoint numbers (l : list value) : result (list float) :=
  match l with
  | [] => Ok []
  | Num x :: l' => xs <- numbers l' ;; Ok (x :: xs)
  | Str _ :: _ => Raise (TypeError "could not convert string to float")
  end.

Definition dropna (xs : list float) : list float :=
  filter (fun x => negb (is_nan x)) xs.

Definition fsum (xs : list float) : float :=
  fold_left PrimFloat.add xs 0%float.

Definition nanmean (xs : list float) : float :=
  match dropna xs with
  | [] => nan
  | present => (fsum present / float_of_nat (List.length present))%float
  end.

Definition mean (l : list value) : result float :=
  xs <- numbers l ;; Ok (nanmean xs).

(** ** The summary of a CSV upload ([main], lines 341-350) *)

Record SentimentSummary : Type := mkSummary {
  distribution : list (value * nat);
  average_confidence : float;
  positive_percentage : float;
  negative_percentage : float
}.

(** [sentiment_analysis] of the CSV path: [None] is the empty dict of a table
    without a [sentiment_label] column. *)
Definition csv_sentiment_analysis (df : DataFrame) : result (option SentimentSummary) :=
  match column_index "sentiment_label" (columns df) with
  | None => Ok None
  | Some i =>
      let sentiment_counts := label_counts (series i (data df)) in
      let total := len df in
      avg <- match column_index "sentiment_score" (columns df) with
             | Some j => mean (series j (data df))
             | None => Ok 0%float
             end ;;
      pos <- label_percentage sentiment_counts "POSITIVE" "positive" total ;;
      neg <- label_percentage sentiment_counts "NEGATIVE" "negative" total ;;
      Ok (Some (mkSummary sentiment_counts avg pos neg))
  end.

(** *** The percentages as the specification words them *)

(** ASCII lower-casing of a character and of a text ([str.lower] on ASCII;
    other characters are left as they are). *)
Definition lower_ascii (c : ascii) : ascii :=
  let n := nat_of_ascii c in
  if Nat.leb 65 n && Nat.leb n 90 then ascii_of_nat (n + 32) else c.

Fixpoint lower (s : string) : string :=
  match s with
  | EmptyString => EmptyString
  | String c s' => String (lower_ascii c) (lower s')
  end.

(** The number of labels that match [word] case-insensitively: the count
    the specification divides by the number of rows. *)
Definition count_ignoring_case (word : string) (labels : list value) : nat :=
  List.length
    (filter (fun v => match v with
                      | Str s => String.eqb (lower s) word
                      | Num _ => false
                      end) labels).

(** The float [c / total * 100]. *)
Definition percentage (c total : nat) : float :=
  (float_of_nat c / float_of_nat total * 100)%float.

(** The same quantity in exact arithmetic, without rounding. *)
Definition exact_percentage (c total : nat) : Q :=
  (inject_Z (Z.of_nat c) / inject_Z (Z.of_nat total) * 100)%Q.

(** Tables of labels only. *)
Definition labelled (labels : list string) : DataFrame :=
  mkDataFrame ["sentiment_label"] (map (fun s => [Str s]) labels).

(** The count the percentage of a label is taken from: the rows labelled
    [upper] when there is one, the rows labelled [lower] otherwise. *)
Definition counted_rows (upper lower : string) (labels : list value) : nat :=
  match count value_eqb (Str upper) labels with
  | 0 => count value_eqb (Str lower) labels
  | S n => S n
  end.

(** The label column of a table ([[]] when there is none). *)
Definition labels_of (df : DataFrame) : list value :=
  match column_index "sentiment_label" (columns df) with
  | Some i => series i (data df)
  | None => []
  end.


(** ** Score statistics ([describe], line 264) *)

(** [Series.std()] as [describe] reports it, after [nanops.nanvar] of
    pandas with [ddof = 1]: missing values are masked; when the count of
    present values is at most [ddof], count and divisor are NaN. *)
Definition nanvar (ddof : nat) (xs : list float) : float :=
  let n := List.length (dropna xs) in
  let count := if Nat.leb n ddof then nan else float_of_nat n in
  let d := if Nat.leb n ddof then nan
           else (float_of_nat n - float_of_nat ddof)%float in
  let values := map (fun x => if is_nan x then 0%float else x) xs in
  let avg := (fsum values / count)%float in
  let sqr := map (fun x => if is_nan x then 0%float
                           else ((avg - x) * (avg - x))%float) xs in
  (fsum sqr / d)%float.

Definition nanstd (ddof : nat) (xs : list float) : float :=
  PrimFloat.sqrt (nanvar ddof xs).

(** The entries of [score_stats] that are plain sums: count, mean and
    standard deviation (the minimum, the median and the maximum are not
    modelled).  The [describe] of a column with a text cell has none of
    them, and line 268, which reads the mean first, raises. *)
Record ScoreStats : Type := mkStats {
  stats_count : nat;
  stats_mean : float;
  stats_std : float
}.

Definition describe (scores : list value) : result ScoreStats :=
  match numbers scores with
  | Ok xs => Ok (mkStats (List.length (dropna xs)) (nanmean xs) (nanstd 1 xs))
  | Raise _ => Raise (KeyError "mean")
  end.

(** Lines 262-264: the statistics of the view, when it has a score column. *)
Definition score_stats (filtered_df : DataFrame) : option (result ScoreStats) :=
  match column_index "sentiment_score" (columns filtered_df) with
  | Some j => Some (describe (series j (data filtered_df)))
  | None => None
  end.

(** A view with one row. *)
Definition one_row : DataFrame :=
  mkDataFrame sample_columns
    [ [Str "Great customer service and fast delivery."; Str "POSITIVE";
       Num 0.9%float; Str "Great service and fast delivery."] ].

(** ** Word frequency (lines 233-241) *)

(** Whitespace of [str.split()] on the ASCII range: tab to carriage return,
    the four separators 28-31 and the space. *)
Definition is_space (c : ascii) : bool :=
  let n := nat_of_ascii c in
  (Nat.leb 9 n && Nat.leb n 13) || (Nat.leb 28 n && Nat.leb n 31) || Nat.eqb n 32.

Definition is_empty (s : string) : bool :=
  match s with
  | EmptyString => true
  | String _ _ => false
  end.

(** [s.split()]: the maximal runs of characters that are not whitespace;
    [word] is the run being read. *)
Fixpoint split_from (word : string) (s : string) : list string :=
  match s with
  | EmptyString => if is_empty word then [] else [word]
  | String c s' =>
      if is_space c then
        if is_empty word then split_from "" s' else word :: split_from "" s'
      else split_from (word ++ String c "") s'
  end.

Definition split (s : string) : list string := split_from "" s.

(** [sep.join(l)] *)
Fixpoint join (sep : string) (l : list string) : string :=
  match l with
  | [] => ""
  | [x] => x
  | x :: l' => x ++ sep ++ join sep l'
  end.

(** Line 238. *)
Definition stop_words : list string :=
  ["the"; "and"; "or"; "but"; "in"; "on"; "at"; "to"; "for"; "of"; "with";
   "by"; "from"; "up"; "about"; "into"; "through"; "during"; "before";
   "after"; "above"; "below"; "between"; "among"; "through"; "during";
   "before"; "after"; "above"; "below"; "between"].

Definition is_stop_word (word : string) : bool :=
  existsb (String.eqb word) stop_words.

(** Line 239: [word not in stop_words and len(word) > 2]. *)
Definition keep_word (word : string) : bool :=
  negb (is_stop_word word) && Nat.ltb 2 (String.length word).

Section Text.

(** [str(x)] of a float that is not NaN: the decimal text Python prints. *)
Variable float_str : float -> string.

(** [astype(str)] on one cell. *)
Definition astype_str (v : value) : string :=
  match v with
  | Str s => s
  | Num x => if is_nan x then "nan" else float_str x
  end.

(** Lines 234-241: the 20 most frequent words of the comments. *)
Definition word_freq (comments : list value) : list (string * nat) :=
  let all_text := join " " (map astype_str comments) in
  let words := split (lower all_text) in
  let words := filter keep_word words in
  firstn 20 (value_counts String.eqb words).


End Text.

(** ** CSV export and re-load ([to_csv], line 294; [read_csv], line 331) *)

Definition comma : ascii := ascii_of_nat 44.
Definition dquote : ascii := ascii_of_nat 34.
Definition LF : ascii := ascii_of_nat 10.
Definition CR : ascii := ascii_of_nat 13.
Definition space : ascii := ascii_of_nat 32.
Definition tab : ascii := ascii_of_nat 9.

Fixpoint string_exists (p : ascii -> bool) (s : string) : bool :=
  match s with
  | EmptyString => false
  | String c s' => p c || string_exists p s'
  end.

Fixpoint string_forall (p : ascii -> bool) (s : string) : bool :=
  match s with
  | EmptyString => true
  | String c s' => p c && string_forall p s'
  end.

(** *** Writing: [csv.writer] with minimal quoting *)

(** The characters that make the writer quote a field: the delimiter, the
    quote character and the line breaks (the carriage return since
    Python 3.13). *)
Definition special (c : ascii) : bool :=
  Ascii.eqb c comma || Ascii.eqb c dquote || Ascii.eqb c LF || Ascii.eqb c CR.

Fixpoint double_quotes (s : string) : string :=
  match s with
  | EmptyString => EmptyString
  | String c s' =>
      if Ascii.eqb c dquote then String dquote (String dquote (double_quotes s'))
      else String c (double_quotes s')
  end.

Definition quote_field (s : string) : string :=
  if string_exists special s
  then String dquote (double_quotes s ++ String dquote "")
  else s.

(** One record and its line terminator; a record of one empty field is
    written as an empty quoted field. *)
Definition write_record (fields : list string) : string :=
  match fields with
  | [EmptyString] => String dquote (String dquote (String LF ""))
  | _ => join (String comma "") (map quote_field fields) ++ String LF ""
  end.

Section Csv.

(** The decimal text of a float that is not NaN, and the number a field
    is read as when pandas takes it for a number: both belong to Python
    and pandas and are parameters here. *)
Variable float_str : float -> string.
Variable parse_float : string -> option float.

(** The text of a cell: a missing cell is written empty ([na_rep='']). *)
Definition field_text (v : value) : string :=
  match v with
  | Str s => s
  | Num x => if is_nan x then "" else float_str x
  end.

(** [df.to_csv(index=False)] *)
Definition to_csv (df : DataFrame) : string :=
  write_record (columns df)
  ++ fold_right append "" (map (fun r => write_record (map field_text r)) (data df)).

(** *** Reading: the tokenizer of pandas at its defaults *)

Inductive state : Type :=
| START_RECORD
| START_FIELD
| IN_FIELD
| IN_QUOTED_FIELD
| QUOTE_IN_QUOTED_FIELD
| EAT_CRNL
| EAT_CRNL_NOP
| WHITESPACE_LINE.

(** The tokenizer: its state, the field and the line being read, and the
    lines read so far. *)
Record parser_t : Type := mkParser {
  st : state;
  field : string;
  fields : list string;
  lines : list (list string)
}.

Definition set_state (s : state) (p : parser_t) : parser_t :=
  mkParser s (field p) (fields p) (lines p).

Definition push_char (c : ascii) (p : parser_t) : parser_t :=
  mkParser (st p) (field p ++ String c "") (fields p) (lines p).

Definition end_field (p : parser_t) : parser_t :=
  mkParser (st p) "" (fields p ++ [field p]) (lines p).

Definition end_line (p : parser_t) : parser_t :=
  mkParser (st p) "" [] (lines p ++ [fields p]).

Definition drop_field (p : parser_t) : parser_t :=
  mkParser (st p) "" (fields p) (lines p).

Definition start_field (c : ascii) (p : parser_t) : parser_t :=
  if Ascii.eqb c LF then set_state START_RECORD (end_line (end_field p))
  else if Ascii.eqb c CR then set_state EAT_CRNL (end_field p)
  else if Ascii.eqb c dquote then set_state IN_QUOTED_FIELD p
  else if Ascii.eqb c comma then set_state START_FIELD (end_field p)
  else set_state IN_FIELD (push_char c p).

Definition in_field (c : ascii) (p : parser_t) : parser_t :=
  if Ascii.eqb c LF then set_state START_RECORD (end_line (end_field p))
  else if Ascii.eqb c CR then set_state EAT_CRNL (end_field p)
  else if Ascii.eqb c comma then set_state START_FIELD (end_field p)
  else set_state IN_FIELD (push_char c p).

Definition whitespace (c : ascii) : bool :=
  Ascii.eqb c space || Ascii.eqb c tab.

(** At the start of a record an empty line is skipped, and so is a line
    of spaces and tabs ([skip_blank_lines]). *)
Definition start_record (c : ascii) (p : parser_t) : parser_t :=
  if Ascii.eqb c LF then p
  else if Ascii.eqb c CR then set_state EAT_CRNL_NOP p
  else if whitespace c then set_state WHITESPACE_LINE (push_char c p)
  else start_field c p.


Definition step (p : parser_t) (c : ascii) : parser_t :=
  match st p with
  | START_RECORD => start_record c p
  | START_FIELD => start_field c p
  | IN_FIELD => in_field c p
  | IN_QUOTED_FIELD =>
      if Ascii.eqb c dquote then set_state QUOTE_IN_QUOTED_FIELD p
      else push_char c p
  | QUOTE_IN_QUOTED_FIELD =>
      if Ascii.eqb c dquote then set_state IN_QUOTED_FIELD (push_char c p)
      else in_field c p
  | EAT_CRNL =>
      if Ascii.eqb c LF then set_state START_RECORD (end_line p)
      else start_record c (set_state START_RECORD (end_line p))
  | EAT_CRNL_NOP =>
      if Ascii.eqb c LF then set_state START_RECORD p
      else start_record c (set_state START_RECORD p)
  | WHITESPACE_LINE =>
      if Ascii.eqb c LF then set_state START_RECORD (drop_field p)
      else if Ascii.eqb c CR then set_state EAT_CRNL_NOP (drop_field p)
      else if whitespace c then push_char c p
      else in_field c p
  end.

Fixpoint run (p : parser_t) (s : string) : parser_t :=
  match s with
  | EmptyString => p
  | String c s' => run (step p c) s'
  end.

(** The end of the input closes the line being read; inside a quoted
    field it is an error. *)
Definition handle_eof (p : parser_t) : result (list (list string)) :=
  match st p with
  | START_RECORD | WHITESPACE_LINE | EAT_CRNL_NOP => Ok (lines p)
  | IN_QUOTED_FIELD => Raise (ParserError "Error tokenizing data. C error: EOF inside string")
  | START_FIELD | IN_FIELD | QUOTE_IN_QUOTED_FIELD =>
      Ok (lines (end_line (end_field p)))
  | EAT_CRNL => Ok (lines (end_line p))
  end.

Definition tokenize (s : string) : result (list (list string)) :=
  handle_eof (run (mkParser START_RECORD "" [] []) s).

(** *** Reading: missing values and column types *)

(** The default missing-value markers of [read_csv]. *)
Definition na_values : list string :=
  [""; "#N/A"; "#N/A N/A"; "#NA"; "-1.#IND"; "-1.#QNAN"; "-NaN"; "-nan";
   "1.#IND"; "1.#QNAN"; "<NA>"; "N/A"; "NA"; "NULL"; "NaN"; "None"; "n/a";
   "nan"; "null"].

Definition is_na (f : string) : bool := existsb (String.eqb f) na_values.

Definition is_number (f : string) : bool :=
  match parse_float f with
  | Some _ => true
  | None => false
  end.

(** A column is numeric when each of its fields is a missing-value marker
    or a number. *)
Definition numeric_column (j : nat) (rows : list (list string)) : bool :=
  forallb (fun r => let f := nth j r "" in is_na f || is_number f) rows.

Definition convert (is_numeric : bool) (f : string) : value :=
  if is_na f then NaN
  else if is_numeric then
    match parse_float f with
    | Some x => Num x
    | None => Str f
    end
  else Str f.

(** The cells of a line of [width] columns from column [j] on; a short
    line is filled with missing cells. *)
Fixpoint convert_row (rows : list (list string)) (r : list string)
    (j width : nat) : Row :=
  match width with
  | 0 => []
  | S width' =>
      convert (numeric_column j rows) (nth j r "")
      :: convert_row rows r (S j) width'
  end.

(** [pd.read_csv]: the first line is the header; a line with more fields
    than the header is an error.  Not modelled: the renaming of empty and
    repeated column names, the conversion of columns of [True]/[False] to
    booleans, and a leading index column. *)
Definition read_csv (s : string) : result DataFrame :=
  ls <- tokenize s ;;
  match ls with
  | [] => Raise (EmptyDataError "No columns to parse from file")
  | header :: rows =>
      let width := List.length header in
      if forallb (fun r => Nat.leb (List.length r) width) rows
      then Ok (mkDataFrame header
                 (map (fun r => convert_row rows r 0 width) rows))
      else Raise (ParserError "Error tokenizing data. C error: Expected fewer fields")
  end.

(** *** Tables that survive the export and the re-load *)









End Csv.

(** The decimal texts of the three scores of the sample table, and their
    reading. *)
Definition sample_float_str (x : float) : string :=
  if PrimFloat.eqb x 0.995 then "0.995"
  else if PrimFloat.eqb x 0.892 then "0.892"
  else if PrimFloat.eqb x 0.967 then "0.967"
  else "0.0".

Definition sample_parse_float (s : string) : option float :=
  if String.eqb s "0.995" then Some 0.995%float
  else if String.eqb s "0.892" then Some 0.892%float
  else if String.eqb s "0.967" then Some 0.967%float
  else None.


(** ** The page: [display_analysis_results] and [main] *)

(** What a run of the script puts on the page, in order.  Of the page only
    the elements that carry the loaded data are kept: the messages, the key
    metrics, the table, the word frequencies, the score statistics and the
    two downloads; headings, charts and information boxes are left out.
    The welcome screen, with the sample of the expected format it ends
    with (lines 365-421), is one element. *)
Inductive element : Type :=
| st_success (body : string)
| st_error (body : string)
| st_metrics (total_comments : nat) (avg_confidence positive_pct negative_pct : float)
| st_showing (shown total : nat)
| st_dataframe (df : DataFrame)
| st_image (wordcloud : string)
| st_word_freq (word_freq : list (string * nat))
| st_score_stats (stats : ScoreStats)
| st_download (csv_data : string)
| st_welcome (sample : DataFrame).

(** A piece of the script: the elements it shows, and its value or the
    exception that ended it. *)
Definition ui (A : Type) : Type := (list element * result A)%type.

Definition ui_ret {A : Type} (a : A) : ui A := ([], Ok a).

Definition ui_bind {A B : Type} (m : ui A) (k : A -> ui B) : ui B :=
  match snd m with
  | Ok a => (fst m ++ fst (k a), snd (k a))
  | Raise e => (fst m, Raise e)
  end.

Definition show (e : element) : ui unit := ([e], Ok tt).

Definition lift {A : Type} (r : result A) : ui A := ([], r).

Notation "x <~ m ;; k" := (ui_bind m (fun x => k))
  (at level 61, m at next level, right associativity).

(** [try: body except Exception as e: st.error(prefix + str(e))]: what was
    shown before the exception stays on the page. *)
Definition guarded (prefix : string) (body : ui unit) : list element :=
  match snd body with
  | Ok _ => fst body
  | Raise e => fst body ++ [st_error (prefix ++ str_exn e)]
  end.

(** The value of [json.load]: a report (a dict) with the outcome of
    [pd.DataFrame(results_data['data'])] when it has a [data] key, the
    [total_comments] of its metadata, its summary and the outcome of
    decoding its word cloud; or any other JSON value. *)
Inductive json_value : Type :=
| report (data : option (result DataFrame)) (total_comments : option nat)
    (sentiment_analysis : option SentimentSummary)
    (wordcloud : option (result string))
| not_a_dict.

(** The state of the two filter widgets: the labels the user selected
    ([None]: the multiselect is at its default) and the slider's value. *)
Record widgets : Type := mkWidgets {
  selected_sentiments : option (list value);
  selected_confidence : float
}.

(** [df.empty] *)
Definition empty (df : DataFrame) : bool :=
  match columns df, data df with
  | [], _ => true
  | _, [] => true
  | _, _ => false
  end.

(** [pd.DataFrame(df.to_dict(orient='records'))]: a table without rows
    has no records, and the table made of no records has no columns. *)
Definition from_records (df : DataFrame) : DataFrame :=
  match data df with
  | [] => mkDataFrame [] []
  | _ => df
  end.

Section Page.

Variable float_str : float -> string.

(** Lines 128-162: the widgets and the filtered table. *)
Definition filtered_view (df : DataFrame) (w : widgets) : result DataFrame :=
  let sentiment_filter :=
    match default_sentiment_filter df, selected_sentiments w with
    | Some _, Some chosen => Some chosen
    | default, _ => default
    end in
  let min_confidence :=
    match column_index "sentiment_score" (columns df) with
    | Some _ => selected_confidence w
    | None => 0%float
    end in
  apply_filters df sentiment_filter min_confidence.

(** Lines 220-256: the word cloud of the report, or the word frequencies
    of the comments. *)
Definition word_cloud_tab (wordcloud : option (result string))
    (filtered_df : DataFrame) : ui unit :=
  match wordcloud with
  | Some (Ok image) => show (st_image image)
  | Some (Raise e) =>
      show (st_error ("Could not display word cloud: " ++ str_exn e))
  | None =>
      match column_index "comment" (columns filtered_df) with
      | Some i =>
          show (st_word_freq (word_freq float_str (series i (data filtered_df))))
      | None => ui_ret tt
      end
  end.

(** Lines 74-312. *)
Definition display_analysis_results (results_data : json_value)
    (df : option DataFrame) (w : widgets) : ui unit :=
  df <~ lift (match results_data with
              | report (Some made) _ _ _ => r <- made ;; Ok (Some r)
              | _ => Ok df
              end) ;;
  let total :=
    match results_data with
    | report _ (Some n) _ _ => n
    | _ => match df with Some d => len d | None => 0 end
    end in
  let summary :=
    match results_data with
    | report _ _ (Some s) _ =>
        (average_confidence s, positive_percentage s, negative_percentage s)
    | _ => (0%float, 0%float, 0%float)
    end in
  _ <~ show (st_metrics total (fst (fst summary)) (snd (fst summary)) (snd summary)) ;;
  match df with
  | None => ui_ret tt
  | Some d =>
      if empty d then ui_ret tt
      else
        filtered_df <~ lift (filtered_view d w) ;;
        _ <~ show (st_showing (len filtered_df) (len d)) ;;
        _ <~ show (st_dataframe filtered_df) ;;
        _ <~ word_cloud_tab
               (match results_data with
                | report _ _ _ wordcloud => wordcloud
                | not_a_dict => None
                end) filtered_df ;;
        _ <~ match score_stats filtered_df with
             | Some stats => s <~ lift stats ;; show (st_score_stats s)
             | None => ui_ret tt
             end ;;
        _ <~ show (st_download (to_csv float_str filtered_df)) ;;
        show (st_download (to_csv float_str d))
  end.

(** The two loaders, [json.load] and [pd.read_csv], on the bytes of the
    uploaded file. *)
Variable json_load : string -> result json_value.
Variable read_csv : string -> result DataFrame.

(** [str(len(df))] *)
Definition str_nat (n : nat) : string := NilEmpty.string_of_uint (Nat.to_uint n).

(** Lines 315-421. *)
Definition main (uploaded_json uploaded_csv : option string) (w : widgets)
  : list element :=
  match uploaded_json, uploaded_csv with
  | Some file, _ =>
      guarded "❌ Error loading JSON file: "
        (json_data <~ lift (json_load file) ;;
         _ <~ show (st_success "✅ JSON analysis results loaded successfully!") ;;
         display_analysis_results json_data None w)
  | None, Some file =>
      guarded "❌ Error loading CSV file: "
        (df <~ lift (read_csv file) ;;
         _ <~ show (st_success ("✅ CSV results loaded successfully! ("
                                 ++ str_nat (len df) ++ " rows)")) ;;
         sentiment_analysis <~ lift (csv_sentiment_analysis df) ;;
         display_analysis_results
           (report (Some (Ok (from_records df))) (Some (len df))
              sentiment_analysis None)
           (Some df) w)
  | None, None => [st_welcome sample_data]
  end.

(** The exception of the loader on the upload that [main] reads, if it
    raises one. *)
Definition load_failure (uploaded_json uploaded_csv : option string) : option exn :=
  match uploaded_json, uploaded_csv with
  | Some file, _ =>
      match json_load file with Raise e => Some e | Ok _ => None end
  | None, Some file =>
      match read_csv file with Raise e => Some e | Ok _ => None end
  | None, None => None
  end.

Definition error_prefix (uploaded_json : option string) : string :=
  match uploaded_json with
  | Some _ => "❌ Error loading JSON file: "
  | None => "❌ Error loading CSV file: "
  end.

End Page.

(** The tables of loaded data on a page (line 162). *)
Fixpoint tables (page : list element) : list DataFrame :=
  match page with
  | [] => []
  | st_dataframe df :: page' => df :: tables page'
  | _ :: page' => tables page'
  end.

(** ** Sample comments by sentiment (lines 277-285) *)

(** [cell == sentiment] on one cell: the equality of Python, for which a
    missing value equals nothing, itself included. *)
Definition eq_scalar (v sentiment : value) : bool :=
  match v, sentiment with
  | Str s, Str t => String.eqb s t
  | Num x, Num y => PrimFloat.eqb x y
  | _, _ => false
  end.

(** For each distinct label of the view, in order of first appearance, the
    first five comments of the rows with that label; nothing when the view
    lacks one of the two columns. *)
Definition sample_comments (filtered_df : DataFrame) : list (value * list value) :=
  match column_index "sentiment_label" (columns filtered_df),
        column_index "comment" (columns filtered_df) with
  | Some i, Some k =>
      map (fun sentiment =>
             (sentiment,
              firstn 5
                (series k
                   (boolean_index
                      (map (fun v => eq_scalar v sentiment)
                         (series i (data filtered_df)))
                      (data filtered_df)))))
        (unique (series i (data filtered_df)))
  | _, _ => []
  end.

(** ** The sentiment distribution of the view (lines 170-171) *)

Definition view_sentiment_counts (filtered_df : DataFrame)
  : option (list (value * nat)) :=
  match column_index "sentiment_label" (columns filtered_df) with
  | Some i => Some (label_counts (series i (data filtered_df)))
  | None => None
  end.

(** ** Reading a page *)

(** The downloads offered on a page (lines 294 and 305). *)
Fixpoint downloads (page : list element) : list string :=
  match page with
  | [] => []
  | st_download csv_data :: page' => csv_data :: downloads page'
  | _ :: page' => downloads page'
  end.

(** The error messages on a page. *)
Fixpoint errors (page : list element) : list string :=
  match page with
  | [] => []
  | st_error body :: page' => body :: errors page'
  | _ :: page' => errors page'
  end.

(** A table of one column of comments, and one more with labels. *)
Definition commented (comments : list value) : DataFrame :=
  mkDataFrame ["comment"] (map (fun c => [c]) comments).

Definition mixed_scores : DataFrame :=
  mkDataFrame ["sentiment_label"; "sentiment_score"]
    [ [Str "POSITIVE"; Num 0.9%float]; [Str "NEGATIVE"; Str "high"] ].

Definition missing_label : DataFrame :=
  mkDataFrame ["comment"; "sentiment_label"]
    [ [Str "fine"; Str "POSITIVE"]; [Str "no label"; NaN];
      [Str "good"; Str "POSITIVE"] ].


(** ** Invariants of a page and of the tokenizer *)

(** The table and the downloads that a page may carry: none of either; or
    the view of a loaded table alone, when a later step raised; or the view
    with the two downloads. *)
Definition page_of_view (float_str : float -> string) (w : widgets)
    (page : list element) : Prop :=
  (tables page = [] /\ downloads page = []) \/
  exists d fv, empty d = false /\ filtered_view d w = Ok fv /\
    tables page = [fv] /\
    (downloads page = [] \/
     downloads page = [to_csv float_str fv; to_csv float_str d]).


(** The tokenizer between lines, with no line read so far. *)
Definition between_lines (p : parser_t) : Prop :=
  lines p = [] /\
  (st p = START_RECORD \/ st p = WHITESPACE_LINE \/ st p = EAT_CRNL_NOP).

(** A character of an empty line: a line break, a space or a tab. *)
Definition blank_char (c : ascii) : bool :=
  Ascii.eqb c LF || Ascii.eqb c CR || whitespace c.





(* ================================================================= *)
(** * Properties *)

(** ** Floats: what the comparisons do on NaN *)

Lemma leb_nan_r (m : float) : PrimFloat.leb m nan = false.
Proof.
  rewrite FloatAxioms.leb_spec. change (Prim2SF nan) with S754_nan.
  unfold SFleb. destruct (Prim2SF m); reflexivity.
Qed.

Lemma leb_true_not_nan (m x : float) :
  PrimFloat.leb m x = true -> is_nan x = false.
Proof.
  intros H. unfold is_nan. rewrite FloatAxioms.eqb_spec.
  rewrite FloatAxioms.leb_spec in H. unfold SFleb in H. unfold SFeqb.
  destruct (Prim2SF x) as [s | s | | s mx ex].
  - reflexivity.
  - destruct s; reflexivity.
  - destruct (Prim2SF m); discriminate H.
  - simpl. rewrite Z.compare_refl.
    assert (Hm : Pos.compare_cont Eq mx mx = Eq) by apply Pos.compare_refl.
    rewrite Hm. destruct s; reflexivity.
Qed.

Lemma value_eqb_refl (v : value) : value_eqb v v = true.
Proof.
  destruct v as [s | x]; simpl.
  - apply String.eqb_refl.
  - unfold is_nan. destruct (PrimFloat.eqb x x); reflexivity.
Qed.

(** ** Masks and row selection *)

Lemma boolean_index_map {A : Type} (p : A -> bool) (l : list A) :
  boolean_index (map p l) l = filter p l.
Proof.
  induction l as [| a l IH]; simpl.
  - reflexivity.
  - rewrite IH. reflexivity.
Qed.

Lemma boolean_index_series (p : value -> bool) (i : nat) (rows : list Row) :
  boolean_index (map p (series i rows)) rows = filter (fun r => p (cell i r)) rows.
Proof.
  unfold series. rewrite map_map. apply boolean_index_map.
Qed.

Lemma mapM_ge_scalar_Ok (m : float) (vs : list value) (mask : list bool) :
  mapM (ge_scalar m) vs = Ok mask ->
  mask = map (above_threshold m) vs /\ forallb numeric vs = true.
Proof.
  revert mask. induction vs as [| v vs IH]; simpl; intros mask H.
  - inversion H. split; reflexivity.
  - destruct v as [s | x]; simpl in H; [discriminate H |].
    destruct (mapM (ge_scalar m) vs) as [bs | e]; simpl in H; [| discriminate H].
    inversion H; subst. destruct (IH bs eq_refl) as [-> Hn].
    split; [reflexivity | exact Hn].
Qed.

Lemma mapM_ge_scalar_numeric (m : float) (vs : list value) :
  forallb numeric vs = true ->
  mapM (ge_scalar m) vs = Ok (map (above_threshold m) vs).
Proof.
  induction vs as [| v vs IH]; simpl; intros H.
  - reflexivity.
  - apply andb_true_iff in H. destruct H as [Hv Hvs].
    destruct v as [s | x]; [discriminate Hv |].
    simpl. rewrite (IH Hvs). reflexivity.
Qed.

Lemma above_threshold_numeric (m : float) (v : value) :
  above_threshold m v = true -> numeric v = true.
Proof. destruct v; simpl; [discriminate | reflexivity]. Qed.

(** ** The filter as a selection of rows *)

Lemma filter_by_label_spec (df : DataFrame) (sel : option (list value)) :
  filter_by_label df sel = filter (label_selected (columns df) sel) (data df).
Proof.
  unfold filter_by_label, label_selected.
  destruct sel as [[| l sel] |]; simpl.
  - symmetry. apply forallb_filter_id. apply forallb_forall. reflexivity.
  - destruct (column_index "sentiment_label" (columns df)) as [i |].
    + apply boolean_index_series.
    + symmetry. apply forallb_filter_id. apply forallb_forall. reflexivity.
  - symmetry. apply forallb_filter_id. apply forallb_forall. reflexivity.
Qed.

(** Whenever the filter returns, its view has the columns of the table
    and the rows that pass both criteria, in table order. *)
Lemma apply_filters_Ok (df : DataFrame) (sel : option (list value)) (m : float)
    (fv : DataFrame) :
  apply_filters df sel m = Ok fv ->
  fv = mkDataFrame (columns df)
         (filter (score_passes (columns df) m)
            (filter (label_selected (columns df) sel) (data df))).
Proof.
  unfold apply_filters, score_passes. rewrite filter_by_label_spec.
  destruct (column_index "sentiment_score" (columns df)) as [j |].
  - destruct (mapM (ge_scalar m) (series j (filter (label_selected (columns df) sel) (data df))))
      as [mask | e] eqn:Hm; simpl; [| discriminate].
    intros H. inversion H. apply mapM_ge_scalar_Ok in Hm. destruct Hm as [-> _].
    rewrite boolean_index_series. reflexivity.
  - intros H. inversion H. f_equal. symmetry.
    apply forallb_filter_id. apply forallb_forall. reflexivity.
Qed.

Lemma forallb_series_filter (p : value -> bool) (i : nat) (q : Row -> bool)
    (rows : list Row) :
  forallb p (series i rows) = true ->
  forallb p (series i (filter q rows)) = true.
Proof.
  induction rows as [| r rows IH]; simpl; intros H.
  - reflexivity.
  - apply andb_true_iff in H. destruct H as [Hr Hrows].
    destruct (q r); simpl; [rewrite Hr |]; auto.
Qed.

(** The filter returns on every table whose score column is numeric. *)
Lemma apply_filters_total (df : DataFrame) (sel : option (list value)) (m : float) :
  float_scores df = true ->
  apply_filters df sel m
  = Ok (mkDataFrame (columns df)
          (filter (score_passes (columns df) m)
             (filter (label_selected (columns df) sel) (data df)))).
Proof.
  unfold float_scores, apply_filters, score_passes. rewrite filter_by_label_spec.
  destruct (column_index "sentiment_score" (columns df)) as [j |]; intros Hn.
  - rewrite mapM_ge_scalar_numeric.
    + simpl. rewrite boolean_index_series. reflexivity.
    + apply forallb_series_filter. exact Hn.
  - f_equal. f_equal. symmetry.
    apply forallb_filter_id. apply forallb_forall. reflexivity.
Qed.

Lemma filter_all {A : Type} (p : A -> bool) (l : list A) :
  (forall a, In a l -> p a = true) -> filter p l = l.
Proof.
  intros H. apply forallb_filter_id. apply forallb_forall. exact H.
Qed.

Lemma filter_twice {A : Type} (p q : A -> bool) (l : list A) :
  filter p (filter q (filter p (filter q l))) = filter p (filter q l).
Proof.
  rewrite (filter_all q (filter p (filter q l))); [apply filter_all |].
  - intros a Ha. apply filter_In in Ha. apply Ha.
  - intros a Ha. apply filter_In in Ha. destruct Ha as [Ha _].
    apply filter_In in Ha. apply Ha.
Qed.

(** The general form of idempotence: a view the filter returned is a fixed
    point of the filter, whatever the cells of the table are. *)
Lemma apply_filters_fixed_point (df : DataFrame) (sel : option (list value))
    (m : float) (fv : DataFrame) :
  apply_filters df sel m = Ok fv -> apply_filters fv sel m = Ok fv.
Proof.
  intros H. apply apply_filters_Ok in H. subst fv.
  rewrite apply_filters_total; simpl.
  - rewrite filter_twice. reflexivity.
  - unfold float_scores; simpl.
    destruct (column_index "sentiment_score" (columns df)) as [j |] eqn:Hj;
      [| reflexivity].
    unfold series. apply forallb_forall. intros v Hv.
    apply in_map_iff in Hv. destruct Hv as [r [<- Hr]].
    apply filter_In in Hr. destruct Hr as [_ Hr].
    unfold score_passes in Hr. rewrite Hj in Hr.
    apply above_threshold_numeric with (m := m). exact Hr.
Qed.

(** ** Distinct labels *)

Lemma isin_unique_acc (seen l : list value) (v : value) :
  In v l -> isin seen v = true \/ isin (unique_acc seen l) v = true.
Proof.
  revert seen. induction l as [| w l IH]; simpl; intros seen Hv.
  - contradiction.
  - destruct Hv as [-> | Hv].
    + destruct (isin seen v) eqn:Hs.
      * left. reflexivity.
      * right. simpl. rewrite value_eqb_refl. reflexivity.
    + destruct (isin seen w) eqn:Hs.
      * apply IH. exact Hv.
      * destruct (IH (w :: seen) Hv) as [H | H].
        -- simpl in H. apply orb_true_iff in H. destruct H as [H | H].
           ++ right. simpl. rewrite H. reflexivity.
           ++ left. exact H.
        -- right. simpl. rewrite H. apply orb_true_r.
Qed.

Lemma isin_unique (l : list value) (v : value) :
  In v l -> isin (unique l) v = true.
Proof.
  intros Hv. destruct (isin_unique_acc [] l v Hv) as [H | H].
  - discriminate H.
  - exact H.
Qed.

Lemma default_filter_selects_all (df : DataFrame) (r : Row) :
  In r (data df) ->
  label_selected (columns df) (default_sentiment_filter df) r = true.
Proof.
  intros Hr. unfold label_selected, default_sentiment_filter.
  destruct (column_index "sentiment_label" (columns df)) as [i |]; [| reflexivity].
  destruct (unique (series i (data df))) as [| l sel] eqn:Hu; [reflexivity |].
  rewrite <- Hu. apply isin_unique. unfold series. apply in_map. exact Hr.
Qed.

(* ----------------------------------------------------------------- *)
(** ** Claims on the filter *)

(** C1 (as stated, refuted): on the sample table whose second row has no
    score, the default filter with threshold 0.0 drops that row: the row
    with the undefined score is not kept. *)
Lemma missing_score_row_dropped :
  isna (cell 2 (nth 1 (data sample_missing_score) [])) = true /\
  apply_filters sample_missing_score
    (default_sentiment_filter sample_missing_score) 0%float
  = Ok (mkDataFrame sample_columns [nth 0 (data sample_missing_score) []]).
Proof. split; vm_compute; reflexivity. Qed.

(** C1 (amended): for every table with a numeric [sentiment_score] column and
    every threshold, the filter returns, and it keeps exactly the rows that
    pass the label criterion and have a defined score at or above the
    threshold: a row whose score is undefined (NaN) is never kept. *)
Theorem filter_keeps_defined_scores_only (df : DataFrame)
    (sel : option (list value)) (m : float) (j : nat) :
  column_index "sentiment_score" (columns df) = Some j ->
  float_scores df = true ->
  exists fv, apply_filters df sel m = Ok fv /\
    forall r, In r (data fv) <->
      In r (data df) /\ label_selected (columns df) sel r = true /\
      exists x, cell j r = Num x /\ is_nan x = false /\ PrimFloat.leb m x = true.
Proof.
  intros Hj Hn. eexists. split; [apply apply_filters_total; exact Hn |].
  simpl. intros r. rewrite !filter_In. unfold score_passes. rewrite Hj.
  split.
  - intros [[Hr Hl] Hs]. split; [exact Hr | split; [exact Hl |]].
    destruct (cell j r) as [s | x]; simpl in Hs; [discriminate Hs |].
    exists x. split; [reflexivity | split; [| exact Hs]].
    apply leb_true_not_nan with (m := m). exact Hs.
  - intros [Hr [Hl [x [Hx [_ Hs]]]]]. rewrite Hx. simpl. auto.
Qed.

Lemma filter_keeps_defined_scores_only_witness :
  exists fv, apply_filters sample_missing_score (Some [Str "POSITIVE"]) 0.5%float = Ok fv /\
    forall r, In r (data fv) <->
      In r (data sample_missing_score) /\
      label_selected (columns sample_missing_score) (Some [Str "POSITIVE"]) r = true /\
      exists x, cell 2 r = Num x /\ is_nan x = false /\ PrimFloat.leb 0.5%float x = true.
Proof.
  apply (filter_keeps_defined_scores_only sample_missing_score
           (Some [Str "POSITIVE"]) 0.5%float 2); reflexivity.
Defined.

(** C2 (as stated, refuted): with every distinct label selected and threshold
    0.0, the view of the two-row table with one missing score has one row. *)
Lemma default_filter_loses_row :
  len sample_missing_score = 2 /\
  option_map len
    (match apply_filters sample_missing_score
             (default_sentiment_filter sample_missing_score) 0%float with
     | Ok fv => Some fv
     | Raise _ => None
     end) = Some 1.
Proof. split; vm_compute; reflexivity. Qed.

(** C2 (amended): for every table in which every row has a defined score at
    or above 0.0 (or which has no score column), filtering with every
    distinct label selected and threshold 0.0 returns the table itself: the
    same rows in the same order. *)
Theorem default_filter_identity (df : DataFrame) :
  forallb (score_passes (columns df) 0%float) (data df) = true ->
  apply_filters df (default_sentiment_filter df) 0%float = Ok df.
Proof.
  intros Hs. rewrite apply_filters_total.
  - rewrite (filter_all (label_selected _ _) (data df)).
    + rewrite forallb_filter_id by exact Hs. destruct df; reflexivity.
    + intros r Hr. apply default_filter_selects_all. exact Hr.
  - unfold float_scores, score_passes in *.
    destruct (column_index "sentiment_score" (columns df)) as [j |];
      [| reflexivity].
    unfold series. apply forallb_forall. intros v Hv.
    apply in_map_iff in Hv. destruct Hv as [r [<- Hr]].
    rewrite forallb_forall in Hs.
    apply above_threshold_numeric with (m := 0%float). apply Hs. exact Hr.
Qed.

Lemma default_filter_identity_witness :
  apply_filters sample_data (default_sentiment_filter sample_data) 0%float
  = Ok sample_data.
Proof. apply (default_filter_identity sample_data). reflexivity. Defined.

(** C5: filtering is idempotent.  For every table with a numeric score
    column (or none), every selection of labels and every threshold, the
    filter returns a view, and the filter with the same criteria on the rows
    of that view returns the same view: same rows, same order. *)
Theorem apply_filters_idempotent (df : DataFrame) (sel : option (list value))
    (m : float) :
  float_scores df = true ->
  exists fv, apply_filters df sel m = Ok fv /\ apply_filters fv sel m = Ok fv.
Proof.
  intros Hn. eexists. split.
  - apply apply_filters_total. exact Hn.
  - apply apply_filters_fixed_point with (df := df).
    apply apply_filters_total. exact Hn.
Qed.

Lemma apply_filters_idempotent_witness :
  exists fv,
    apply_filters sample_data (Some [Str "POSITIVE"]) 0.97%float = Ok fv /\
    apply_filters fv (Some [Str "POSITIVE"]) 0.97%float = Ok fv.
Proof.
  apply (apply_filters_idempotent sample_data (Some [Str "POSITIVE"]) 0.97%float).
  reflexivity.
Defined.

(** C10: an empty selection of labels switches the label criterion off.  For
    every table with a [sentiment_label] column (and a numeric score column
    or none), the filter with the empty selection keeps every row that
    passes the score threshold, in table order; it is the filter with no
    selection at all. *)
Theorem empty_selection_keeps_all_labels (df : DataFrame) (m : float) :
  float_scores df = true ->
  apply_filters df (Some []) m
  = Ok (mkDataFrame (columns df) (filter (score_passes (columns df) m) (data df)))
  /\ apply_filters df (Some []) m = apply_filters df None m.
Proof.
  intros Hn. split; [| reflexivity].
  rewrite apply_filters_total by exact Hn.
  rewrite (filter_all (label_selected _ _) (data df)); reflexivity.
Qed.

Lemma empty_selection_keeps_all_labels_witness :
  apply_filters sample_data (Some []) 0.9%float
  = Ok (mkDataFrame (columns sample_data)
          (filter (score_passes (columns sample_data) 0.9%float) (data sample_data)))
  /\ apply_filters sample_data (Some []) 0.9%float
     = apply_filters sample_data None 0.9%float.
Proof.
  apply (empty_selection_keeps_all_labels sample_data 0.9%float). reflexivity.
Defined.

Example empty_selection_sample :
  option_map len
    (match apply_filters sample_data (Some []) 0.9%float with
     | Ok fv => Some fv
     | Raise _ => None
     end) = Some 2.
Proof. vm_compute. reflexivity. Qed.

(* ----------------------------------------------------------------- *)
(** ** Counting values *)

Lemma find_hd_filter {A : Type} (p : A -> bool) (l : list A) :
  find p l = hd_error (filter p l).
Proof.
  induction l as [| a l IH]; simpl; [reflexivity |].
  destruct (p a); [reflexivity | exact IH].
Qed.

Lemma Permutation_filter_compat {A : Type} (p : A -> bool) (l l' : list A) :
  Permutation l l' -> Permutation (filter p l) (filter p l').
Proof.
  induction 1 as [| a l l' _ IH | a b l | l l' l'' _ IH1 _ IH2]; simpl.
  - constructor.
  - destruct (p a); [constructor |]; exact IH.
  - destruct (p a), (p b); try apply Permutation_refl. constructor.
  - eapply Permutation_trans; eassumption.
Qed.

Section ValueCountsFacts.

Context {K : Type} (eqb : K -> K -> bool).

Lemma insert_desc_perm (e : K * nat) (t : list (K * nat)) :
  Permutation (insert_desc e t) (e :: t).
Proof.
  induction t as [| e' t IH]; simpl.
  - apply Permutation_refl.
  - destruct (Nat.leb (snd e') (snd e)).
    + apply Permutation_refl.
    + eapply Permutation_trans; [apply perm_skip, IH | apply perm_swap].
Qed.

Lemma sort_desc_perm (t : list (K * nat)) : Permutation (sort_desc t) t.
Proof.
  induction t as [| e t IH]; simpl.
  - constructor.
  - eapply Permutation_trans; [apply insert_desc_perm | apply perm_skip, IH].
Qed.

(** A key [q] that [eqb] relates to itself only: every text for
    [String.eqb], every text cell for [value_eqb]. *)
Variable q : K.
Hypothesis eqb_exact : forall k, eqb k q = true -> k = q.
Hypothesis eqb_sym : forall k, eqb q k = true -> eqb k q = true.

Lemma matches_incr_hit (k : K) (t : list (K * nat)) :
  eqb k q = true ->
  matches eqb q (incr eqb k t)
  = match matches eqb q t with
    | [] => [(k, 1)]
    | (k', n) :: rest => (k', S n) :: rest
    end.
Proof.
  intros Hk. pose proof (eqb_exact k Hk) as ->.
  induction t as [| [k' n] t IH]; simpl.
  - rewrite Hk. reflexivity.
  - destruct (eqb k' q) eqn:Hk'; simpl; rewrite Hk'.
    + reflexivity.
    + exact IH.
Qed.

Lemma matches_incr_miss (k : K) (t : list (K * nat)) :
  eqb k q = false -> matches eqb q (incr eqb k t) = matches eqb q t.
Proof.
  intros Hk. induction t as [| [k' n] t IH]; simpl.
  - rewrite Hk. reflexivity.
  - destruct (eqb k' k) eqn:Hkk; simpl.
    + destruct (eqb k' q) eqn:Hk'; [| reflexivity].
      apply eqb_exact in Hk'. subst k'.
      apply eqb_sym in Hkk. congruence.
    + destruct (eqb k' q); [f_equal |]; exact IH.
Qed.

Lemma holds_incr (k : K) (t : list (K * nat)) (c : nat) :
  holds eqb q t c -> holds eqb q (incr eqb k t) (if eqb k q then S c else c).
Proof.
  unfold holds. intros H. destruct (eqb k q) eqn:Hk.
  - rewrite matches_incr_hit by exact Hk. rewrite H.
    apply eqb_exact in Hk. subst k. destruct c; reflexivity.
  - rewrite matches_incr_miss by exact Hk. exact H.
Qed.

Lemma holds_fold (l : list K) (t : list (K * nat)) (c : nat) :
  holds eqb q t c ->
  holds eqb q (fold_left (fun t k => incr eqb k t) l t) (count eqb q l + c).
Proof.
  revert t c. induction l as [| k l IH]; intros t c H; simpl.
  - exact H.
  - apply (holds_incr k) in H. apply IH in H.
    unfold count in *. simpl. destruct (eqb k q); simpl.
    + replace (S (List.length (filter (fun k0 => eqb k0 q) l) + c))
        with (List.length (filter (fun k0 => eqb k0 q) l) + S c) by lia.
      exact H.
    + exact H.
Qed.

Lemma holds_tally (l : list K) : holds eqb q (tally eqb l) (count eqb q l).
Proof.
  unfold tally. rewrite <- (Nat.add_0_r (count eqb q l)).
  apply holds_fold. reflexivity.
Qed.

Lemma holds_value_counts (l : list K) :
  holds eqb q (value_counts eqb l) (count eqb q l).
Proof.
  pose proof (holds_tally l) as H. unfold holds in *.
  pose proof (Permutation_filter_compat (fun e => eqb (fst e) q) _ _
                (sort_desc_perm (tally eqb l))) as Hp.
  fold (matches eqb q (tally eqb l)) in Hp. rewrite H in Hp.
  unfold value_counts, matches.
  apply Permutation_sym in Hp. destruct (count eqb q l).
  - apply Permutation_nil in Hp. exact Hp.
  - apply Permutation_length_1_inv in Hp. exact Hp.
Qed.

(** The entry of [q] in the counts of a list: the number of its elements
    that are [q], and no entry when there is none. *)
Lemma entry_value_counts (l : list K) :
  entry eqb q (value_counts eqb l)
  = match count eqb q l with
    | 0 => None
    | S n => Some (q, S n)
    end.
Proof.
  unfold entry. rewrite find_hd_filter.
  pose proof (holds_value_counts l) as H. unfold holds, matches in H.
  rewrite H. destruct (count eqb q l); reflexivity.
Qed.

End ValueCountsFacts.

(* ----------------------------------------------------------------- *)
(** ** The percentages of the CSV summary *)

Lemma value_eqb_Str (v : value) (s : string) :
  value_eqb v (Str s) = true -> v = Str s.
Proof.
  destruct v as [t | x]; simpl; [| discriminate].
  intros H. apply String.eqb_eq in H. congruence.
Qed.

Lemma value_eqb_Str_sym (s : string) (v : value) :
  value_eqb (Str s) v = true -> value_eqb v (Str s) = true.
Proof.
  destruct v as [t | x]; simpl; [| discriminate].
  rewrite String.eqb_sym. auto.
Qed.

Lemma count_dropna (s : string) (l : list value) :
  count value_eqb (Str s) (filter (fun v => negb (isna v)) l)
  = count value_eqb (Str s) l.
Proof.
  unfold count. induction l as [| v l IH]; simpl; [reflexivity |].
  destruct v as [t | x]; simpl.
  - destruct (String.eqb t s); simpl; rewrite IH; reflexivity.
  - destruct (is_nan x); simpl; exact IH.
Qed.

Lemma get_label_counts (l : list value) (s : string) (default : counted) :
  get (label_counts l) s default
  = match count value_eqb (Str s) l with
    | 0 => default
    | S n => NpInt (S n)
    end.
Proof.
  unfold get, label_counts.
  rewrite (entry_value_counts value_eqb (Str s)
             (fun k => value_eqb_Str k s) (value_eqb_Str_sym s)).
  rewrite count_dropna. destruct (count value_eqb (Str s) l); reflexivity.
Qed.

Lemma label_percentage_counts (l : list value) (upper lower : string) (total : nat) :
  total <> 0 ->
  label_percentage (label_counts l) upper lower total
  = Ok (percentage (counted_rows upper lower l) total).
Proof.
  intros Ht. unfold label_percentage, counted_rows, percentage.
  rewrite !get_label_counts.
  destruct (count value_eqb (Str upper) l) as [| n]; [| reflexivity].
  destruct (count value_eqb (Str lower) l) as [| n]; [| reflexivity].
  simpl. apply Nat.eqb_neq in Ht. rewrite Ht. reflexivity.
Qed.

Lemma numbers_numeric (l : list value) :
  forallb numeric l = true -> exists xs, numbers l = Ok xs.
Proof.
  induction l as [| v l IH]; simpl; intros H.
  - exists []. reflexivity.
  - apply andb_true_iff in H. destruct H as [Hv Hl].
    destruct v as [s | x]; [discriminate Hv |].
    destruct (IH Hl) as [xs ->]. exists (x :: xs). reflexivity.
Qed.

Lemma mean_numeric (l : list value) :
  forallb numeric l = true -> exists x, mean l = Ok x.
Proof.
  intros H. unfold mean. destruct (numbers_numeric l H) as [xs ->].
  simpl. eexists. reflexivity.
Qed.

(** On a table with a label column, numeric scores and a row, the summary
    is computed, and its two percentages are those of the counted rows. *)
Lemma csv_sentiment_analysis_counts (df : DataFrame) (i : nat) :
  column_index "sentiment_label" (columns df) = Some i ->
  float_scores df = true ->
  len df <> 0 ->
  exists s, csv_sentiment_analysis df = Ok (Some s) /\
    positive_percentage s
    = percentage (counted_rows "POSITIVE" "positive" (labels_of df)) (len df) /\
    negative_percentage s
    = percentage (counted_rows "NEGATIVE" "negative" (labels_of df)) (len df).
Proof.
  intros Hi Hn Hlen. unfold csv_sentiment_analysis, labels_of. rewrite Hi.
  assert (Havg : exists avg,
             match column_index "sentiment_score" (columns df) with
             | Some j => mean (series j (data df))
             | None => Ok 0%float
             end = Ok avg).
  { unfold float_scores in Hn.
    destruct (column_index "sentiment_score" (columns df)) as [j |].
    - apply mean_numeric. exact Hn.
    - eexists. reflexivity. }
  destruct Havg as [avg ->]. simpl.
  rewrite !label_percentage_counts by exact Hlen. simpl.
  eexists. split; [reflexivity |]. split; reflexivity.
Qed.

(** C3 (as stated, refuted): a single row labelled "Positive" matches
    "positive" up to case, so the stated percentage is 100; the summary
    computes 0. *)
Lemma mixed_case_label_not_counted :
  percentage (count_ignoring_case "positive" (labels_of (labelled ["Positive"])))
    (len (labelled ["Positive"])) = 100%float /\
  option_map positive_percentage
    (match csv_sentiment_analysis (labelled ["Positive"]) with
     | Ok s => s
     | Raise _ => None
     end) = Some 0%float.
Proof. split; vm_compute; reflexivity. Qed.

(** When both spellings occur only the rows labelled "POSITIVE" count. *)
Example both_spellings_not_added :
  option_map positive_percentage
    (match csv_sentiment_analysis (labelled ["POSITIVE"; "positive"]) with
     | Ok s => s
     | Raise _ => None
     end) = Some 50%float.
Proof. vm_compute. reflexivity. Qed.

(** A header-only CSV: line 348 divides the default count 0 by 0 rows. *)
Example no_rows_division_by_zero :
  csv_sentiment_analysis (labelled [])
  = Raise (ZeroDivisionError "division by zero").
Proof. vm_compute. reflexivity. Qed.

(** C3 (amended): on the CSV path, for every table with a [sentiment_label]
    column, numeric scores and at least one row, the summary is computed and
    [positive_percentage] is the number of rows labelled exactly "POSITIVE"
    or, when there is no such row, the number of rows labelled exactly
    "positive", divided by the row count, times 100; symmetrically
    [negative_percentage] with "NEGATIVE" and "negative".  A label that
    occurs in no row contributes 0. *)
Theorem csv_percentages_exact_spelling (df : DataFrame) (i : nat) :
  column_index "sentiment_label" (columns df) = Some i ->
  float_scores df = true ->
  len df <> 0 ->
  exists s, csv_sentiment_analysis df = Ok (Some s) /\
    positive_percentage s
    = percentage
        (match count value_eqb (Str "POSITIVE") (series i (data df)) with
         | 0 => count value_eqb (Str "positive") (series i (data df))
         | S n => S n
         end) (len df) /\
    negative_percentage s
    = percentage
        (match count value_eqb (Str "NEGATIVE") (series i (data df)) with
         | 0 => count value_eqb (Str "negative") (series i (data df))
         | S n => S n
         end) (len df).
Proof.
  intros Hi Hn Hlen.
  destruct (csv_sentiment_analysis_counts df i Hi Hn Hlen) as [s [Hs [Hp Hq]]].
  exists s. unfold labels_of, counted_rows in Hp, Hq. rewrite Hi in Hp, Hq.
  auto.
Qed.

Lemma csv_percentages_exact_spelling_witness :
  exists s, csv_sentiment_analysis sample_data = Ok (Some s) /\
    positive_percentage s
    = percentage
        (match count value_eqb (Str "POSITIVE") (series 1 (data sample_data)) with
         | 0 => count value_eqb (Str "positive") (series 1 (data sample_data))
         | S n => S n
         end) (len sample_data) /\
    negative_percentage s
    = percentage
        (match count value_eqb (Str "NEGATIVE") (series 1 (data sample_data)) with
         | 0 => count value_eqb (Str "negative") (series 1 (data sample_data))
         | S n => S n
         end) (len sample_data).
Proof.
  apply (csv_percentages_exact_spelling sample_data 1);
    [reflexivity | reflexivity | discriminate].
Defined.

(** *** Counts and exact percentages *)

Lemma count_le_length (s : string) (l : list value) :
  count value_eqb (Str s) l <= List.length l.
Proof. unfold count. apply filter_length_le. Qed.





Lemma series_length (i : nat) (rows : list Row) :
  List.length (series i rows) = List.length rows.
Proof. apply length_map. Qed.

Section ExactPercentage.

Local Open Scope Q_scope.

Variable total : nat.
Hypothesis total_pos : total <> 0%nat.

Lemma total_Qpos : 0 < inject_Z (Z.of_nat total).
Proof.
  change 0 with (inject_Z 0). rewrite <- Zlt_Qlt. lia.
Qed.

Lemma exact_percentage_ratio (c : nat) :
  exact_percentage c total
  == inject_Z (Z.of_nat c * 100) / inject_Z (Z.of_nat total).
Proof.
  unfold exact_percentage. rewrite inject_Z_mult.
  change (inject_Z 100) with 100. field.
  intros H. pose proof total_Qpos as Hp. rewrite H in Hp.
  discriminate Hp.
Qed.




Lemma exact_percentage_all : exact_percentage total total == 100.
Proof.
  unfold exact_percentage. field.
  intros H. pose proof total_Qpos as Hp. rewrite H in Hp. discriminate Hp.
Qed.

Lemma exact_percentage_zero : exact_percentage 0 total == 0.
Proof.
  rewrite exact_percentage_ratio. simpl. unfold Qdiv. apply Qmult_0_l.
Qed.

End ExactPercentage.

(* ----------------------------------------------------------------- *)
(** ** Floats: the quotient of a count by itself *)

Section FloatQuotients.

Local Open Scope Z_scope.









End FloatQuotients.

(* ----------------------------------------------------------------- *)
(** ** Bounds on the percentages *)




(** Three rows, all labelled POSITIVE: the floats 100 and 0. *)
Example all_positive_sample :
  option_map (fun s => (positive_percentage s, negative_percentage s))
    (match csv_sentiment_analysis (labelled ["POSITIVE"; "POSITIVE"; "POSITIVE"]) with
     | Ok s => s
     | Raise _ => None
     end) = Some (100%float, 0%float).
Proof. vm_compute. reflexivity. Qed.

(* ----------------------------------------------------------------- *)
(** ** Score statistics *)

Lemma div_nan_r (x : float) : (x / nan)%float = nan.
Proof.
  apply Prim2SF_inj. rewrite FloatAxioms.div_spec.
  change (Prim2SF nan) with S754_nan.
  unfold SF64div, SFdiv. destruct (Prim2SF x); reflexivity.
Qed.

Lemma nanstd_single (xs : list float) :
  List.length (dropna xs) = 1 -> nanstd 1 xs = nan.
Proof.
  intros H. unfold nanstd, nanvar. rewrite H. simpl Nat.leb. cbv iota.
  rewrite div_nan_r. reflexivity.
Qed.

Lemma numbers_dropna (l : list value) (xs : list float) :
  numbers l = Ok xs ->
  List.length (dropna xs) = List.length (filter (fun v => negb (isna v)) l).
Proof.
  revert xs. induction l as [| v l IH]; simpl; intros xs H.
  - inversion H. reflexivity.
  - destruct v as [s | x]; [discriminate H |].
    destruct (numbers l) as [ys | e]; simpl in H; [| discriminate H].
    inversion H; subst. simpl. unfold dropna in *. simpl.
    destruct (is_nan x); simpl; rewrite (IH ys eq_refl); reflexivity.
Qed.

(** C4 (as stated, refuted): the statistics of a view with a single row,
    of score 0.9, have count 1, mean 0.9 and standard deviation NaN, not 0. *)
Lemma single_row_std_is_nan :
  score_stats one_row = Some (Ok (mkStats 1 0.9%float nan)).
Proof. vm_compute. reflexivity. Qed.

(** C4 (amended): the standard deviation of the score statistics is the
    sample one, dividing by N-1, and the case of one value is not defined as
    0: for every view with a numeric score column and exactly one row with a
    defined score, the statistics are computed, their count is 1 and their
    standard deviation is NaN. *)
Theorem single_score_std_undefined (filtered_df : DataFrame) (j : nat) :
  column_index "sentiment_score" (columns filtered_df) = Some j ->
  float_scores filtered_df = true ->
  List.length (filter (fun v => negb (isna v)) (series j (data filtered_df))) = 1 ->
  exists st, score_stats filtered_df = Some (Ok st) /\
    stats_count st = 1 /\ stats_std st = nan /\
    PrimFloat.eqb (stats_std st) 0 = false.
Proof.
  intros Hj Hn Hone. unfold score_stats, float_scores in *. rewrite Hj in *.
  destruct (numbers_numeric _ Hn) as [xs Hxs].
  unfold describe. rewrite Hxs. eexists. split; [reflexivity |]. simpl.
  pose proof (numbers_dropna _ _ Hxs) as Hlen. rewrite Hone in Hlen.
  rewrite nanstd_single by exact Hlen. auto.
Qed.

Lemma single_score_std_undefined_witness :
  exists st, score_stats sample_missing_score = Some (Ok st) /\
    stats_count st = 1 /\ stats_std st = nan /\
    PrimFloat.eqb (stats_std st) 0 = false.
Proof.
  apply (single_score_std_undefined sample_missing_score 2); reflexivity.
Defined.

(** With two scores or more the divisor is N-1. *)
Example sample_std :
  option_map (fun r => match r with Ok st => stats_std st | Raise _ => nan end)
    (score_stats sample_data) = Some 0.053257237379846611%float.
Proof. vm_compute. reflexivity. Qed.

(* ----------------------------------------------------------------- *)
(** ** Word frequency *)










Lemma In_head {A : Type} (n : nat) (l : list A) (a : A) :
  In a (firstn n l) -> In a l.
Proof.
  intros H. rewrite <- (firstn_skipn n l). apply in_or_app. left. exact H.
Qed.



Example word_freq_sample :
  word_freq (fun _ => "") [Str "The cat and THE dog"; NaN; Str "Cat on a mat"]
  = [("cat", 2); ("dog", 1); ("nan", 1); ("mat", 1)].
Proof. vm_compute. reflexivity. Qed.

(* ----------------------------------------------------------------- *)
(** ** The tokenizer on what the writer wrote *)




Lemma run_app (p : parser_t) (a b : string) :
  run p (a ++ b) = run (run p a) b.
Proof.
  revert p. induction a as [| c a IH]; intros p; simpl; [reflexivity | apply IH].
Qed.





















(** ** Export and re-load *)

Lemma is_nan_eq (x : float) : is_nan x = true -> x = nan.
Proof.
  intros H. apply Prim2SF_inj. change (Prim2SF nan) with S754_nan.
  unfold is_nan in H. rewrite FloatAxioms.eqb_spec in H. unfold SFeqb in H.
  destruct (Prim2SF x) as [s | s | | s mx ex]; simpl in H.
  - discriminate H.
  - destruct s; discriminate H.
  - reflexivity.
  - rewrite Z.compare_refl in H.
    assert (Hm : Pos.compare_cont Eq mx mx = Eq) by apply Pos.compare_refl.
    rewrite Hm in H. destruct s; discriminate H.
Qed.

Section Roundtrip.

Variable float_str : float -> string.
Variable parse_float : string -> option float.

#[local] Abbreviation text := (field_text float_str).









End Roundtrip.



Example quoted_fields_reload :
  let df := mkDataFrame ["comment"; "sentiment_label"]
              [ [Str "fast, cheap"; Str "POSITIVE"];
                [Str (String dquote "so-so"); NaN];
                [Str " late"; Str "NEGATIVE"] ] in
  read_csv (fun _ => None) (to_csv (fun _ => "") df) = Ok df.
Proof. vm_compute. reflexivity. Qed.

(* ----------------------------------------------------------------- *)
(** ** Failed loads *)

Lemma guarded_raise (prefix : string) (e : exn) (k : json_value -> ui unit) :
  guarded prefix (ui_bind (lift (Raise e)) k) = [st_error (prefix ++ str_exn e)].
Proof. reflexivity. Qed.

Lemma guarded_raise_csv (prefix : string) (e : exn) (k : DataFrame -> ui unit) :
  guarded prefix (ui_bind (lift (Raise e)) k) = [st_error (prefix ++ str_exn e)].
Proof. reflexivity. Qed.

(** C9: when the loader raises on the uploaded file that [main] reads
    (malformed JSON, unreadable CSV), the page is the single error message
    that carries the text of the exception; no table of loaded data is on
    it, whole or partial, as on the page before any upload. *)
Theorem failed_load_shows_error_only (float_str : float -> string)
    (json_load : string -> result json_value)
    (read_csv : string -> result DataFrame)
    (uploaded_json uploaded_csv : option string) (w : widgets) (e : exn) :
  load_failure json_load read_csv uploaded_json uploaded_csv = Some e ->
  main float_str json_load read_csv uploaded_json uploaded_csv w
  = [st_error (error_prefix uploaded_json ++ str_exn e)] /\
  tables (main float_str json_load read_csv uploaded_json uploaded_csv w) = [] /\
  tables (main float_str json_load read_csv uploaded_json uploaded_csv w)
  = tables (main float_str json_load read_csv None None w).
Proof.
  unfold load_failure, main, error_prefix.
  destruct uploaded_json as [file |].
  - destruct (json_load file) as [v | e']; [discriminate |].
    intros H. inversion H; subst. rewrite guarded_raise. repeat split.
  - destruct uploaded_csv as [file |]; [| discriminate].
    destruct (read_csv file) as [df | e']; [discriminate |].
    intros H. inversion H; subst. rewrite guarded_raise_csv. repeat split.
Qed.

(** An empty file uploaded as CSV. *)
Lemma failed_load_shows_error_only_witness :
  main sample_float_str (fun _ => Ok not_a_dict) (read_csv sample_parse_float)
    None (Some "") (mkWidgets None 0%float)
  = [st_error ("❌ Error loading CSV file: " ++ "No columns to parse from file")] /\
  tables (main sample_float_str (fun _ => Ok not_a_dict) (read_csv sample_parse_float)
            None (Some "") (mkWidgets None 0%float)) = [] /\
  tables (main sample_float_str (fun _ => Ok not_a_dict) (read_csv sample_parse_float)
            None (Some "") (mkWidgets None 0%float))
  = tables (main sample_float_str (fun _ => Ok not_a_dict)
              (read_csv sample_parse_float) None None (mkWidgets None 0%float)).
Proof.
  apply (failed_load_shows_error_only sample_float_str (fun _ => Ok not_a_dict)
           (read_csv sample_parse_float) None (Some "") (mkWidgets None 0%float)
           (EmptyDataError "No columns to parse from file")).
  reflexivity.
Defined.

(** A readable CSV puts its table on the page. *)
Example loaded_csv_shows_table :
  tables (main sample_float_str (fun _ => Ok not_a_dict) (read_csv sample_parse_float)
            None (Some (to_csv sample_float_str sample_data)) (mkWidgets None 0%float))
  = [sample_data].
Proof. vm_compute. reflexivity. Qed.

(** A failure after the load: on a header-only CSV the summary divides by
    zero rows, after the success message. *)
Example header_only_csv :
  main sample_float_str (fun _ => Ok not_a_dict) (read_csv sample_parse_float)
    None (Some (to_csv sample_float_str (labelled []))) (mkWidgets None 0%float)
  = [st_success "✅ CSV results loaded successfully! (0 rows)";
     st_error "❌ Error loading CSV file: division by zero"].
Proof. vm_compute. reflexivity. Qed.

(* ================================================================= *)
(** * Further properties of the script *)

(** ** The filtered view *)

Lemma filter_filter_and {A : Type} (p q : A -> bool) (l : list A) :
  filter p (filter q l) = filter (fun a => q a && p a) l.
Proof.
  induction l as [| a l IH]; simpl; [reflexivity |].
  destruct (q a); simpl; [destruct (p a) |]; rewrite IH; reflexivity.
Qed.

(** X1: whenever the filter returns, its view has the columns of the table,
    its rows are rows of the table selected by a predicate on single rows,
    in table order, and it has at most as many rows as the table. *)
Theorem view_is_ordered_selection (df : DataFrame) (sel : option (list value))
    (m : float) (fv : DataFrame) :
  apply_filters df sel m = Ok fv ->
  columns fv = columns df /\
  (exists keep : Row -> bool, data fv = filter keep (data df)) /\
  len fv <= len df.
Proof.
  intros H. apply apply_filters_Ok in H. subst fv. simpl.
  split; [reflexivity |]. rewrite filter_filter_and. split.
  - eexists. reflexivity.
  - unfold len. simpl. apply filter_length_le.
Qed.

Lemma view_is_ordered_selection_witness :
  columns (mkDataFrame sample_columns [nth 0 (data sample_data) []])
  = columns sample_data /\
  (exists keep : Row -> bool,
     data (mkDataFrame sample_columns [nth 0 (data sample_data) []])
     = filter keep (data sample_data)) /\
  len (mkDataFrame sample_columns [nth 0 (data sample_data) []]) <= len sample_data.
Proof.
  apply (view_is_ordered_selection sample_data (Some [Str "POSITIVE"]) 0.97%float).
  vm_compute. reflexivity.
Defined.

(** X2: on a table with neither a [sentiment_label] nor a [sentiment_score]
    column the widgets have no effect: the view is the table itself. *)
Theorem view_without_filter_columns (df : DataFrame) (w : widgets) :
  column_index "sentiment_label" (columns df) = None ->
  column_index "sentiment_score" (columns df) = None ->
  filtered_view df w = Ok df.
Proof.
  intros Hl Hs. unfold filtered_view, default_sentiment_filter, apply_filters,
    filter_by_label.
  rewrite Hl, Hs. destruct df; reflexivity.
Qed.

Lemma view_without_filter_columns_witness :
  filtered_view (commented [Str "fine"; NaN]) (mkWidgets (Some [Str "POSITIVE"]) 0.9%float)
  = Ok (commented [Str "fine"; NaN]).
Proof.
  apply (view_without_filter_columns (commented [Str "fine"; NaN])); reflexivity.
Defined.




Example filter_raises_sample :
  apply_filters mixed_scores (default_sentiment_filter mixed_scores) 0%float
  = Raise (TypeError "'>=' not supported between instances of 'str' and 'float'")
  /\ apply_filters mixed_scores (Some [Str "POSITIVE"]) 0%float
     = Ok (mkDataFrame (columns mixed_scores) [[Str "POSITIVE"; Num 0.9%float]]).
Proof. split; vm_compute; reflexivity. Qed.

(** The keys of a table of counts are elements of the list counted. *)
Lemma incr_keys {K : Type} (eqb : K -> K -> bool) (k : K) (t : list (K * nat))
    (e : K * nat) :
  In e (incr eqb k t) -> fst e = k \/ In (fst e) (map fst t).
Proof.
  induction t as [| [k' n] t IH]; simpl.
  - intros [<- | []]. left. reflexivity.
  - destruct (eqb k' k); simpl.
    + intros [<- | H]; [right; left; reflexivity |].
      right. right. apply in_map. exact H.
    + intros [<- | H]; [right; left; reflexivity |].
      destruct (IH H) as [H' | H']; [left; exact H' | right; right; exact H'].
Qed.

Lemma tally_keys {K : Type} (eqb : K -> K -> bool) (l : list K) (e : K * nat) :
  In e (tally eqb l) -> In (fst e) l.
Proof.
  unfold tally.
  assert (G : forall t, In e (fold_left (fun t k => incr eqb k t) l t) ->
                        In (fst e) l \/ In (fst e) (map fst t)).
  { induction l as [| k l IH]; intros t H; simpl in *.
    - right. apply in_map. exact H.
    - destruct (IH _ H) as [H' | H']; [left; right; exact H' |].
      apply in_map_iff in H'. destruct H' as [e' [He' Hin]].
      destruct (incr_keys eqb k t e' Hin) as [Hk | Hk].
      + left. left. congruence.
      + right. rewrite <- He'. exact Hk. }
  intros H. destruct (G [] H) as [H' | []]. exact H'.
Qed.

Lemma value_counts_keys {K : Type} (eqb : K -> K -> bool) (l : list K)
    (e : K * nat) :
  In e (value_counts eqb l) -> In (fst e) l.
Proof.
  intros H. apply tally_keys with (eqb := eqb).
  apply (Permutation_in _ (sort_desc_perm (tally eqb l))). exact H.
Qed.

(** X4: with a selection that is not empty, on a table with a label column,
    every row of the view has a selected label, and so has every entry of
    the sentiment distribution of the view. *)
Theorem view_has_selected_labels_only (df : DataFrame) (l : value)
    (sel : list value) (m : float) (i : nat) (fv : DataFrame) :
  column_index "sentiment_label" (columns df) = Some i ->
  apply_filters df (Some (l :: sel)) m = Ok fv ->
  (forall r, In r (data fv) -> isin (l :: sel) (cell i r) = true) /\
  exists counts, view_sentiment_counts fv = Some counts /\
    forall label n, In (label, n) counts -> isin (l :: sel) label = true.
Proof.
  intros Hi H. apply apply_filters_Ok in H. subst fv.
  assert (Hrows : forall r,
             In r (filter (score_passes (columns df) m)
                     (filter (label_selected (columns df) (Some (l :: sel)))
                        (data df))) ->
             isin (l :: sel) (cell i r) = true).
  { intros r Hr. apply filter_In in Hr. destruct Hr as [Hr _].
    apply filter_In in Hr. destruct Hr as [_ Hr].
    unfold label_selected in Hr. rewrite Hi in Hr. exact Hr. }
  split; [exact Hrows |].
  unfold view_sentiment_counts. simpl. rewrite Hi. eexists. split; [reflexivity |].
  intros label n Hin. unfold label_counts in Hin.
  apply value_counts_keys in Hin. simpl in Hin.
  apply filter_In in Hin. destruct Hin as [Hin _].
  unfold series in Hin. apply in_map_iff in Hin. destruct Hin as [r [<- Hr]].
  apply Hrows. exact Hr.
Qed.

Lemma view_has_selected_labels_only_witness :
  (forall r, In r (data (mkDataFrame sample_columns [nth 1 (data sample_data) []])) ->
     isin [Str "NEGATIVE"] (cell 1 r) = true) /\
  exists counts,
    view_sentiment_counts (mkDataFrame sample_columns [nth 1 (data sample_data) []])
    = Some counts /\
    forall label n, In (label, n) counts -> isin [Str "NEGATIVE"] label = true.
Proof.
  apply (view_has_selected_labels_only sample_data (Str "NEGATIVE") [] 0.5%float 1);
    vm_compute; reflexivity.
Defined.

(** ** Raising the threshold *)

Lemma SFleb_trans (x y z : spec_float) :
  SFleb x y = true -> SFleb y z = true -> SFleb x z = true.
Proof.
  unfold SFleb, SFcompare.
  destruct x as [sx | sx | | sx mx ex], y as [sy | sy | | sy my ey],
           z as [sz | sz | | sz mz ez];
    try discriminate; try reflexivity;
    try (destruct sx); try (destruct sy); try (destruct sz);
    try discriminate; try reflexivity; intros Hxy Hyz; try discriminate;
    change (Pos.compare_cont Eq) with Pos.compare in *;
    repeat match goal with
           | H : context [Z.compare ?a ?b] |- _ =>
               destruct (Z.compare_spec a b); try discriminate H
           | H : context [Pos.compare ?a ?b] |- _ =>
               destruct (Pos.compare_spec a b); try discriminate H
           end;
    repeat match goal with
           | |- context [Z.compare ?a ?b] =>
               destruct (Z.compare_spec a b)
           | |- context [Pos.compare ?a ?b] =>
               destruct (Pos.compare_spec a b)
           end;
    subst; simpl in *; try reflexivity; try discriminate; try lia.
Qed.

Lemma leb_trans (a b c : float) :
  PrimFloat.leb a b = true -> PrimFloat.leb b c = true -> PrimFloat.leb a c = true.
Proof.
  rewrite !FloatAxioms.leb_spec. apply SFleb_trans.
Qed.

Lemma filter_implied {A : Type} (p q : A -> bool) (l : list A) :
  (forall a, p a = true -> q a = true) -> filter p (filter q l) = filter p l.
Proof.
  intros H. induction l as [| a l IH]; simpl; [reflexivity |].
  destruct (q a) eqn:Hq; simpl.
  - rewrite IH. reflexivity.
  - destruct (p a) eqn:Hp; [| exact IH].
    rewrite (H a Hp) in Hq. discriminate Hq.
Qed.

Lemma score_passes_weaken (cols : list string) (m1 m2 : float) (r : Row) :
  PrimFloat.leb m1 m2 = true ->
  score_passes cols m2 r = true -> score_passes cols m1 r = true.
Proof.
  unfold score_passes. intros Hm.
  destruct (column_index "sentiment_score" cols) as [j |]; [| auto].
  destruct (cell j r) as [s | x]; simpl; [auto |].
  apply leb_trans. exact Hm.
Qed.

(** Whether the filter returns does not depend on the threshold. *)
Lemma apply_filters_other_threshold (df : DataFrame) (sel : option (list value))
    (m1 m2 : float) (fv1 : DataFrame) :
  apply_filters df sel m1 = Ok fv1 ->
  apply_filters df sel m2
  = Ok (mkDataFrame (columns df)
          (filter (score_passes (columns df) m2)
             (filter (label_selected (columns df) sel) (data df)))).
Proof.
  unfold apply_filters, score_passes. rewrite filter_by_label_spec.
  destruct (column_index "sentiment_score" (columns df)) as [j |].
  - destruct (mapM (ge_scalar m1)
                (series j (filter (label_selected (columns df) sel) (data df))))
      as [mask | e] eqn:E; simpl; [| discriminate].
    intros _. apply mapM_ge_scalar_Ok in E. destruct E as [_ E].
    rewrite (mapM_ge_scalar_numeric m2) by exact E. simpl.
    rewrite boolean_index_series. reflexivity.
  - intros _. f_equal. f_equal. symmetry. apply filter_all. reflexivity.
Qed.

(** X5: raising the threshold refines the view.  When the filter returns a
    view at a threshold, filtering that view at a higher threshold returns
    what filtering the table at the higher threshold returns, and this
    second view has at most as many rows as the first. *)
Theorem raising_threshold_refines_view (df : DataFrame) (sel : option (list value))
    (m1 m2 : float) (fv1 : DataFrame) :
  PrimFloat.leb m1 m2 = true ->
  apply_filters df sel m1 = Ok fv1 ->
  exists fv2, apply_filters df sel m2 = Ok fv2 /\
              apply_filters fv1 sel m2 = Ok fv2 /\
              len fv2 <= len fv1.
Proof.
  intros Hm H1.
  exists (mkDataFrame (columns df)
            (filter (score_passes (columns df) m2)
               (filter (label_selected (columns df) sel) (data df)))).
  split; [apply (apply_filters_other_threshold df sel m1 m2 fv1 H1) |].
  apply apply_filters_Ok in H1. subst fv1. split.
  - rewrite apply_filters_total; simpl.
    + f_equal. f_equal. rewrite !filter_filter_and. apply filter_ext. intros r.
      destruct (label_selected (columns df) sel r); simpl; [| reflexivity].
      destruct (score_passes (columns df) m2 r) eqn:E2.
      * rewrite (score_passes_weaken _ m1 m2 r Hm E2). reflexivity.
      * rewrite andb_false_r. reflexivity.
    + unfold float_scores; simpl.
      destruct (column_index "sentiment_score" (columns df)) as [j |] eqn:Hj;
        [| reflexivity].
      unfold series. apply forallb_forall. intros v Hv.
      apply in_map_iff in Hv. destruct Hv as [r [<- Hr]].
      apply filter_In in Hr. destruct Hr as [_ Hr].
      unfold score_passes in Hr. rewrite Hj in Hr.
      apply above_threshold_numeric with (m := m1). exact Hr.
  - unfold len. simpl.
    rewrite <- (filter_implied (score_passes (columns df) m2)
                  (score_passes (columns df) m1))
      by (intros r; apply score_passes_weaken; exact Hm).
    apply filter_length_le.
Qed.

Lemma raising_threshold_refines_view_witness :
  exists fv2, apply_filters sample_data None 0.97%float = Ok fv2 /\
              apply_filters (mkDataFrame sample_columns
                               [nth 0 (data sample_data) []; nth 2 (data sample_data) []])
                None 0.97%float = Ok fv2 /\
              len fv2 <= len (mkDataFrame sample_columns
                                [nth 0 (data sample_data) []; nth 2 (data sample_data) []]).
Proof.
  apply (raising_threshold_refines_view sample_data None 0.9%float 0.97%float);
    vm_compute; reflexivity.
Defined.

(** ** Tables of counts *)

Section CountTables.

Context {K : Type} (eqb : K -> K -> bool).

(** An earlier entry counts at least as much as a later one. *)
#[local] Abbreviation outranks := (fun a b : K * nat => snd b <= snd a).

Lemma insert_desc_sorted (e : K * nat) (t : list (K * nat)) :
  StronglySorted outranks t -> StronglySorted outranks (insert_desc e t).
Proof.
  induction 1 as [| e' t Hs IH Hall]; simpl.
  - repeat constructor.
  - destruct (Nat.leb (snd e') (snd e)) eqn:E.
    + apply Nat.leb_le in E. constructor; [constructor; assumption |].
      constructor; [exact E |].
      rewrite Forall_forall in *. intros x Hx. specialize (Hall x Hx).
      simpl in *. lia.
    + apply Nat.leb_gt in E. constructor; [exact IH |].
      rewrite Forall_forall in *. intros x Hx.
      apply (Permutation_in _ (insert_desc_perm e t)) in Hx.
      destruct Hx as [<- | Hx]; [simpl; lia | apply Hall; exact Hx].
Qed.

Lemma sort_desc_sorted (t : list (K * nat)) :
  StronglySorted outranks (sort_desc t).
Proof.
  induction t as [| e t IH]; simpl; [constructor |].
  apply insert_desc_sorted. exact IH.
Qed.

Lemma incr_sum (k : K) (t : list (K * nat)) :
  list_sum (map snd (incr eqb k t)) = S (list_sum (map snd t)).
Proof.
  induction t as [| [k' n] t IH]; simpl; [reflexivity |].
  destruct (eqb k' k); simpl; [reflexivity | rewrite IH; lia].
Qed.

Lemma tally_sum (l : list K) :
  list_sum (map snd (tally eqb l)) = List.length l.
Proof.
  unfold tally.
  assert (G : forall t, list_sum (map snd (fold_left (fun t k => incr eqb k t) l t))
                        = List.length l + list_sum (map snd t)).
  { induction l as [| k l IH]; intros t; simpl; [reflexivity |].
    rewrite IH, incr_sum. lia. }
  rewrite G. simpl. lia.
Qed.

Lemma incr_positive (k : K) (t : list (K * nat)) :
  Forall (fun e => 0 < snd e) t -> Forall (fun e => 0 < snd e) (incr eqb k t).
Proof.
  induction 1 as [| [k' n] t Hn Ht IH]; simpl.
  - repeat constructor.
  - destruct (eqb k' k); constructor; simpl in *; auto; lia.
Qed.

Lemma tally_positive (l : list K) : Forall (fun e => 0 < snd e) (tally eqb l).
Proof.
  unfold tally.
  assert (G : forall t, Forall (fun e => 0 < snd e) t ->
                        Forall (fun e => 0 < snd e)
                          (fold_left (fun t k => incr eqb k t) l t)).
  { induction l as [| k l IH]; intros t Ht; simpl; [exact Ht |].
    apply IH. apply incr_positive. exact Ht. }
  apply G. constructor.
Qed.

Lemma list_sum_perm (l l' : list nat) :
  Permutation l l' -> list_sum l = list_sum l'.
Proof.
  induction 1; simpl; lia.
Qed.

Lemma value_counts_sum (l : list K) :
  list_sum (map snd (value_counts eqb l)) = List.length l.
Proof.
  unfold value_counts. rewrite <- (tally_sum l).
  apply list_sum_perm. apply Permutation_map. apply sort_desc_perm.
Qed.

Lemma value_counts_positive (l : list K) :
  Forall (fun e => 0 < snd e) (value_counts eqb l).
Proof.
  unfold value_counts. rewrite Forall_forall. intros e He.
  apply (Permutation_in _ (sort_desc_perm (tally eqb l))) in He.
  pose proof (tally_positive l) as H. rewrite Forall_forall in H. auto.
Qed.

End CountTables.

(** X6: the sentiment distribution, of a view or of a CSV upload, lists its
    counts in descending order; every count is positive and belongs to a
    label that is not missing, and the counts add up to the number of rows
    that have a label. *)
Theorem label_counts_distribution (labels : list value) :
  StronglySorted (fun a b => snd b <= snd a) (label_counts labels) /\
  (forall label n, In (label, n) (label_counts labels) ->
     0 < n /\ isna label = false /\ In label labels) /\
  list_sum (map snd (label_counts labels))
  = List.length (filter (fun v => negb (isna v)) labels).
Proof.
  unfold label_counts. split; [apply sort_desc_sorted |]. split.
  - intros label n Hin. split.
    + pose proof (value_counts_positive value_eqb
                    (filter (fun v => negb (isna v)) labels)) as H.
      rewrite Forall_forall in H. apply (H (label, n) Hin).
    + apply value_counts_keys in Hin. simpl in Hin.
      apply filter_In in Hin. destruct Hin as [Hin Hna].
      split; [apply negb_true_iff; exact Hna | exact Hin].
  - apply value_counts_sum.
Qed.

Example missing_label_distribution :
  view_sentiment_counts missing_label = Some [(Str "POSITIVE", 2)].
Proof. vm_compute. reflexivity. Qed.

(** ** The ranking of the words *)









Example word_freq_keeps_twenty :
  List.length
    (word_freq (fun _ => "")
       [Str "aaa bbb ccc ddd eee fff ggg hhh iii jjj kkk lll mmm nnn ooo";
        Str "ppp qqq rrr sss ttt uuu vvv www aaa"]) = 20.
Proof. vm_compute. reflexivity. Qed.

(** ** The options of the multiselect *)

Lemma unique_acc_In (seen l : list value) (v : value) :
  In v (unique_acc seen l) -> In v l /\ isin seen v = false.
Proof.
  revert seen. induction l as [| w l IH]; simpl; intros seen H; [contradiction |].
  destruct (isin seen w) eqn:E.
  - apply IH in H. tauto.
  - destruct H as [<- | H]; [tauto |].
    apply IH in H. destruct H as [Hin Hs]. simpl in Hs.
    apply orb_false_iff in Hs. tauto.
Qed.

Lemma unique_acc_distinct (seen l : list value) :
  ForallOrdPairs (fun a b => value_eqb b a = false) (unique_acc seen l).
Proof.
  revert seen. induction l as [| w l IH]; simpl; intros seen; [constructor |].
  destruct (isin seen w) eqn:E; [apply IH |].
  constructor; [| apply IH].
  rewrite Forall_forall. intros v Hv. apply unique_acc_In in Hv.
  destruct Hv as [_ Hs]. simpl in Hs. apply orb_false_iff in Hs. tauto.
Qed.

(** X8: the options of the sentiment multiselect are labels of the table,
    every label of the table is among them, and no option is the same key
    as an earlier one (two missing labels are one key). *)
Theorem unique_options (labels : list value) :
  (forall v, In v (unique labels) -> In v labels) /\
  (forall v, In v labels -> isin (unique labels) v = true) /\
  ForallOrdPairs (fun a b => value_eqb b a = false) (unique labels).
Proof.
  split; [| split].
  - intros v H. apply unique_acc_In in H. tauto.
  - apply isin_unique.
  - apply unique_acc_distinct.
Qed.

(** ** Sample comments by sentiment *)

Lemma eq_scalar_refl (v : value) : isna v = false -> eq_scalar v v = true.
Proof.
  destruct v as [s | x]; simpl; intros H.
  - apply String.eqb_refl.
  - unfold is_nan in H. apply negb_false_iff in H. exact H.
Qed.

Lemma eq_scalar_missing (v sentiment : value) :
  isna sentiment = true -> eq_scalar v sentiment = false.
Proof.
  destruct v as [s | x], sentiment as [t | y]; simpl; intros H;
    try reflexivity; try discriminate H.
  apply is_nan_eq in H. subst y.
  rewrite FloatAxioms.eqb_spec. change (Prim2SF nan) with S754_nan.
  unfold SFeqb, SFcompare. destruct (Prim2SF x); reflexivity.
Qed.

(** X9: in the sample comments of a view, every group belongs to a label of
    the view and has at most five comments, each the comment of a row with
    that label; the group of the missing label is empty, and every other
    group has a comment. *)
Theorem sample_comments_groups (filtered_df : DataFrame) (i k : nat)
    (sentiment : value) (comments : list value) :
  column_index "sentiment_label" (columns filtered_df) = Some i ->
  column_index "comment" (columns filtered_df) = Some k ->
  In (sentiment, comments) (sample_comments filtered_df) ->
  In sentiment (series i (data filtered_df)) /\
  List.length comments <= 5 /\
  (forall c, In c comments ->
     exists r, In r (data filtered_df) /\
               eq_scalar (cell i r) sentiment = true /\ c = cell k r) /\
  (isna sentiment = true -> comments = []) /\
  (isna sentiment = false -> comments <> []).
Proof.
  intros Hi Hk Hin. unfold sample_comments in Hin. rewrite Hi, Hk in Hin.
  apply in_map_iff in Hin. destruct Hin as [s [Hs Hu]].
  pose proof (f_equal fst Hs) as Hl. pose proof (f_equal snd Hs) as Hc.
  cbn [fst snd] in Hl, Hc. subst s comments. clear Hs.
  rewrite boolean_index_series.
  apply unique_acc_In in Hu. destruct Hu as [Hu _].
  split; [exact Hu |]. split; [apply firstn_le_length |]. split; [| split].
  - intros c Hc. apply In_head in Hc. unfold series in Hc.
    apply in_map_iff in Hc. destruct Hc as [r [Hc Hr]].
    apply filter_In in Hr. destruct Hr as [Hr He].
    exists r. auto.
  - intros Hna.
    rewrite (filter_ext_in _ (fun _ => false)).
    + assert (G : forall l : list Row, filter (fun _ => false) l = []).
      { induction l; simpl; auto. }
      rewrite G. reflexivity.
    + intros r _. apply eq_scalar_missing. exact Hna.
  - intros Hna Hnil.
    unfold series in Hu. apply in_map_iff in Hu. destruct Hu as [r [Hc Hr]].
    assert (Hf : In r (filter (fun r => eq_scalar (cell i r) sentiment)
                         (data filtered_df))).
    { apply filter_In. split; [exact Hr |]. rewrite Hc.
      apply eq_scalar_refl. exact Hna. }
    destruct (filter (fun r => eq_scalar (cell i r) sentiment) (data filtered_df))
      as [| r' rows]; [contradiction |].
    simpl in Hnil. discriminate Hnil.
Qed.

Lemma sample_comments_groups_witness :
  In (Str "POSITIVE") (series 1 (data missing_label)) /\
  List.length [Str "fine"; Str "good"] <= 5 /\
  (forall c, In c [Str "fine"; Str "good"] ->
     exists r, In r (data missing_label) /\
               eq_scalar (cell 1 r) (Str "POSITIVE") = true /\ c = cell 0 r) /\
  (isna (Str "POSITIVE") = true -> [Str "fine"; Str "good"] = []) /\
  (isna (Str "POSITIVE") = false -> [Str "fine"; Str "good"] <> []).
Proof.
  apply (sample_comments_groups missing_label 1 0 (Str "POSITIVE")
           [Str "fine"; Str "good"]).
  - reflexivity.
  - reflexivity.
  - vm_compute. left. reflexivity.
Defined.

Example sample_comments_missing_label :
  sample_comments missing_label
  = [(Str "POSITIVE", [Str "fine"; Str "good"]); (NaN, [])].
Proof. vm_compute. reflexivity. Qed.

(** ** The statistics of the view *)

Lemma nanstd_few (xs : list float) :
  List.length (dropna xs) <= 1 -> nanstd 1 xs = nan.
Proof.
  intros H. unfold nanstd, nanvar.
  replace (Nat.leb (List.length (dropna xs)) 1) with true
    by (symmetry; apply Nat.leb_le; exact H).
  rewrite div_nan_r. reflexivity.
Qed.

Lemma numbers_length (l : list value) (xs : list float) :
  numbers l = Ok xs -> List.length xs = List.length l.
Proof.
  revert xs. induction l as [| v l IH]; simpl; intros xs H.
  - inversion H. reflexivity.
  - destruct v as [s | x]; [discriminate H |].
    destruct (numbers l) as [ys |]; simpl in H; [| discriminate H].
    inversion H. simpl. rewrite (IH ys); reflexivity.
Qed.

Lemma numbers_above_threshold (m : float) (l : list value) (xs : list float) :
  forallb (above_threshold m) l = true ->
  numbers l = Ok xs -> dropna xs = xs.
Proof.
  revert xs. induction l as [| v l IH]; simpl; intros xs Ha H.
  - inversion H. reflexivity.
  - apply andb_true_iff in Ha. destruct Ha as [Hv Hl].
    destruct v as [s | x]; [discriminate H |].
    destruct (numbers l) as [ys |]; simpl in H; [| discriminate H].
    inversion H; subst xs. unfold dropna. simpl.
    simpl in Hv. rewrite (leb_true_not_nan m x Hv). simpl.
    f_equal. apply IH; [exact Hl | reflexivity].
Qed.

(** X10: on a table whose score column holds numbers only, the statistics
    of a view the filter returns are defined and count every row of the
    view; the standard deviation is NaN when the view has at most one row,
    and the mean is NaN when it has none. *)
Theorem view_score_stats (df fv : DataFrame) (sel : option (list value))
    (m : float) (j : nat) :
  column_index "sentiment_score" (columns df) = Some j ->
  float_scores df = true ->
  apply_filters df sel m = Ok fv ->
  exists stats, score_stats fv = Some (Ok stats) /\
    stats_count stats = len fv /\
    (len fv <= 1 -> stats_std stats = nan) /\
    (len fv = 0 -> stats_mean stats = nan).
Proof.
  intros Hj Hf H. apply apply_filters_Ok in H. subst fv.
  unfold score_stats, len. cbn [columns data]. rewrite Hj.
  set (rows := filter (score_passes (columns df) m)
                 (filter (label_selected (columns df) sel) (data df))).
  assert (Ha : forallb (above_threshold m) (series j rows) = true).
  { apply forallb_forall. intros v Hv. unfold series in Hv.
    apply in_map_iff in Hv. destruct Hv as [r [<- Hr]].
    unfold rows in Hr. apply filter_In in Hr. destruct Hr as [_ Hp].
    unfold score_passes in Hp. rewrite Hj in Hp. exact Hp. }
  assert (Hn : forallb numeric (series j rows) = true).
  { apply forallb_forall. intros v Hv. apply above_threshold_numeric with (m := m).
    rewrite forallb_forall in Ha. apply Ha. exact Hv. }
  destruct (numbers_numeric _ Hn) as [xs Hxs].
  unfold describe. rewrite Hxs.
  pose proof (numbers_above_threshold m _ xs Ha Hxs) as Hd.
  pose proof (numbers_length _ xs Hxs) as Hl. rewrite series_length in Hl.
  eexists. split; [reflexivity |]. cbn [stats_count stats_std stats_mean].
  split; [rewrite Hd; exact Hl |]. split.
  - intros Hle. apply nanstd_few. rewrite Hd, Hl. exact Hle.
  - intros H0. unfold nanmean. rewrite Hd.
    destruct xs as [| x xs]; [reflexivity |]. simpl in Hl. lia.
Qed.

Lemma view_score_stats_witness :
  exists stats, score_stats one_row = Some (Ok stats) /\
    stats_count stats = len one_row /\
    (len one_row <= 1 -> stats_std stats = nan) /\
    (len one_row = 0 -> stats_mean stats = nan).
Proof.
  apply (view_score_stats one_row one_row None 0%float 2).
  - reflexivity.
  - reflexivity.
  - vm_compute. reflexivity.
Defined.

(** ** The summary of a CSV upload *)




Example csv_summary_text_score :
  csv_sentiment_analysis mixed_scores
  = Raise (TypeError "could not convert string to float").
Proof. reflexivity. Qed.

(** ** The page of an upload *)

Lemma tables_app (p q : list element) : tables (p ++ q) = tables p ++ tables q.
Proof.
  induction p as [| e p IH]; simpl; [reflexivity |].
  destruct e; simpl; rewrite IH; reflexivity.
Qed.

Lemma downloads_app (p q : list element) :
  downloads (p ++ q) = downloads p ++ downloads q.
Proof.
  induction p as [| e p IH]; simpl; [reflexivity |].
  destruct e; simpl; rewrite IH; reflexivity.
Qed.

Lemma guarded_tables (prefix : string) (body : ui unit) :
  tables (guarded prefix body) = tables (fst body).
Proof.
  unfold guarded. destruct (snd body); [reflexivity |].
  rewrite tables_app. simpl. apply app_nil_r.
Qed.

Lemma guarded_downloads (prefix : string) (body : ui unit) :
  downloads (guarded prefix body) = downloads (fst body).
Proof.
  unfold guarded. destruct (snd body); [reflexivity |].
  rewrite downloads_app. simpl. apply app_nil_r.
Qed.

Ltac page_cases :=
  repeat match goal with
         | |- context [match ?x with _ => _ end] =>
             destruct x eqn:?;
             cbn [ui_bind lift show ui_ret fst snd app bind word_cloud_tab]
         end.

Lemma page_of_view_guarded (float_str : float -> string) (w : widgets)
    (prefix : string) (body : ui unit) :
  page_of_view float_str w (fst body) ->
  page_of_view float_str w (guarded prefix body).
Proof.
  unfold page_of_view. rewrite guarded_tables, guarded_downloads. tauto.
Qed.

Lemma page_of_view_nil (float_str : float -> string) (w : widgets) :
  page_of_view float_str w [].
Proof. left. split; reflexivity. Qed.

Lemma page_of_view_success (float_str : float -> string) (w : widgets)
    (body : string) (page : list element) :
  page_of_view float_str w page ->
  page_of_view float_str w (st_success body :: page).
Proof. unfold page_of_view. simpl. tauto. Qed.

Lemma display_page (float_str : float -> string) (results_data : json_value)
    (df : option DataFrame) (w : widgets) :
  page_of_view float_str w
    (fst (display_analysis_results float_str results_data df w)).
Proof.
  unfold display_analysis_results.
  set (loaded := match results_data with
                 | report (Some made) _ _ _ => r <- made ;; Ok (Some r)
                 | _ => Ok df
                 end).
  destruct loaded as [[d |] | e]; unfold ui_bind at 1;
    cbn [lift show ui_ret fst snd app];
    try (left; split; reflexivity).
  unfold ui_bind at 1; cbn [lift show ui_ret fst snd app].
  destruct (empty d) eqn:Hempty; [left; split; reflexivity |].
  destruct (filtered_view d w) as [fv | e] eqn:Hview;
    unfold ui_bind at 1; cbn [lift fst snd app]; [| left; split; reflexivity].
  right. exists d, fv. split; [exact Hempty |]. split; [exact Hview |].
  unfold ui_bind, word_cloud_tab; cbn [lift show ui_ret fst snd app].
  page_cases; cbn [app tables downloads]; auto.
Qed.

(** X12: whatever is uploaded and however the widgets are set, the page has
    at most one table.  When it offers downloads, they are two: the table
    on the page is the filtered view of a table with rows, the first
    download is the CSV text of that view and the second the CSV text of
    the whole table. *)
Theorem page_tables_and_downloads (float_str : float -> string)
    (json_load : string -> result json_value)
    (read_csv : string -> result DataFrame)
    (uploaded_json uploaded_csv : option string) (w : widgets) :
  List.length
    (tables (main float_str json_load read_csv uploaded_json uploaded_csv w)) <= 1 /\
  (downloads (main float_str json_load read_csv uploaded_json uploaded_csv w) = [] \/
   exists d fv, empty d = false /\ filtered_view d w = Ok fv /\
     tables (main float_str json_load read_csv uploaded_json uploaded_csv w) = [fv] /\
     downloads (main float_str json_load read_csv uploaded_json uploaded_csv w)
     = [to_csv float_str fv; to_csv float_str d]).
Proof.
  assert (G : forall page, page_of_view float_str w page ->
            List.length (tables page) <= 1 /\
            (downloads page = [] \/
             exists d fv, empty d = false /\ filtered_view d w = Ok fv /\
               tables page = [fv] /\
               downloads page = [to_csv float_str fv; to_csv float_str d])).
  { intros page [[Ht Hd] | [d [fv [He [Hv [Ht [Hd | Hd]]]]]]]; rewrite Ht.
    - simpl. auto.
    - simpl. auto.
    - split; [simpl; lia |]. right. exists d, fv. auto. }
  assert (P : page_of_view float_str w
                (main float_str json_load read_csv uploaded_json uploaded_csv w)).
  { unfold main. destruct uploaded_json as [file |]; [| destruct uploaded_csv as [file |]].
    - apply page_of_view_guarded.
      destruct (json_load file) as [json_data | e];
        unfold ui_bind at 1; cbn [lift fst snd app];
        [| apply page_of_view_nil].
      unfold ui_bind at 1; cbn [show fst snd app].
      apply page_of_view_success, display_page.
    - apply page_of_view_guarded.
      destruct (read_csv file) as [df | e];
        unfold ui_bind at 1; cbn [lift fst snd app];
        [| apply page_of_view_nil].
      unfold ui_bind at 1; cbn [show fst snd app].
      apply page_of_view_success.
      destruct (csv_sentiment_analysis df) as [s | e];
        unfold ui_bind at 1; cbn [lift fst snd app];
        [| apply page_of_view_nil].
      apply display_page.
    - left. split; reflexivity. }
  apply G. exact P.
Qed.

Lemma errors_app (p q : list element) : errors (p ++ q) = errors p ++ errors q.
Proof.
  induction p as [| e p IH]; simpl; [reflexivity |].
  destruct e; simpl; rewrite IH; reflexivity.
Qed.




Lemma ui_bind_lift_Ok {A B : Type} (a : A) (k : A -> ui B) :
  ui_bind (lift (Ok a)) k = k a.
Proof. unfold ui_bind, lift. simpl. destruct (k a); reflexivity. Qed.





(** X14: a CSV upload that is read as a table without rows never shows a
    table.  With a [sentiment_label] column the page is the success message
    followed by the error of the division by zero; without one it is the
    success message and the key metrics, all zero. *)
Theorem csv_without_rows_page (float_str : float -> string)
    (json_load : string -> result json_value)
    (read_csv : string -> result DataFrame)
    (file : string) (w : widgets) (df : DataFrame) :
  read_csv file = Ok df ->
  data df = [] ->
  main float_str json_load read_csv None (Some file) w
  = st_success "✅ CSV results loaded successfully! (0 rows)"
    :: match column_index "sentiment_label" (columns df) with
       | Some _ => [st_error "❌ Error loading CSV file: division by zero"]
       | None => [st_metrics 0 0%float 0%float 0%float]
       end.
Proof.
  intros Hread Hd. unfold main. rewrite Hread, ui_bind_lift_Ok.
  unfold csv_sentiment_analysis, display_analysis_results, from_records, len.
  rewrite Hd.
  destruct (column_index "sentiment_label" (columns df)) as [i |].
  - destruct (column_index "sentiment_score" (columns df)) as [j |]; reflexivity.
  - reflexivity.
Qed.

Lemma csv_without_rows_page_witness :
  main sample_float_str (fun _ => Ok not_a_dict) (read_csv sample_parse_float)
    None (Some "comment,summary") (mkWidgets None 0%float)
  = st_success "✅ CSV results loaded successfully! (0 rows)"
    :: match column_index "sentiment_label" (columns (mkDataFrame ["comment"; "summary"] [])) with
       | Some _ => [st_error "❌ Error loading CSV file: division by zero"]
       | None => [st_metrics 0 0%float 0%float 0%float]
       end.
Proof.
  apply (csv_without_rows_page sample_float_str (fun _ => Ok not_a_dict)
           (read_csv sample_parse_float) "comment,summary"
           (mkWidgets None 0%float) (mkDataFrame ["comment"; "summary"] [])).
  - vm_compute. reflexivity.
  - reflexivity.
Defined.

(** ** Tables read from a CSV file *)











Lemma step_between_lines (p : parser_t) (c : ascii) :
  blank_char c = true -> between_lines p -> between_lines (step p c).
Proof.
  unfold blank_char, between_lines. intros Hc [Hl Hs].
  assert (Hw : Ascii.eqb c LF = false -> Ascii.eqb c CR = false ->
               whitespace c = true).
  { intros H1 H2. rewrite H1, H2 in Hc. exact Hc. }
  unfold step, start_record.
  destruct Hs as [E | [E | E]]; rewrite E;
    destruct (Ascii.eqb c LF) eqn:ELF; destruct (Ascii.eqb c CR) eqn:ECR;
    rewrite ?Hw by reflexivity;
    cbn [set_state end_line end_field push_char drop_field st field fields lines];
    (split; [exact Hl | auto]).
Qed.

Lemma run_between_lines (s : string) (p : parser_t) :
  string_forall blank_char s = true -> between_lines p -> between_lines (run p s).
Proof.
  revert p. induction s as [| c s IH]; intros p Hs Hp; simpl; [exact Hp |].
  simpl in Hs. apply andb_true_iff in Hs. destruct Hs as [Hc Hs].
  apply IH; [exact Hs |]. apply step_between_lines; assumption.
Qed.

(** X16: a CSV file of line breaks, spaces and tabs only has no header:
    [read_csv] raises the error of an empty file, and the page of such an
    upload is that error alone. *)
Theorem blank_csv_rejected (float_str : float -> string)
    (parse_float : string -> option float)
    (json_load : string -> result json_value) (s : string) (w : widgets) :
  string_forall blank_char s = true ->
  read_csv parse_float s = Raise (EmptyDataError "No columns to parse from file") /\
  main float_str json_load (read_csv parse_float) None (Some s) w
  = [st_error "❌ Error loading CSV file: No columns to parse from file"].
Proof.
  intros Hs.
  assert (Hread : read_csv parse_float s
                  = Raise (EmptyDataError "No columns to parse from file")).
  { unfold read_csv, tokenize.
    destruct (run_between_lines s (mkParser START_RECORD "" [] []) Hs) as [Hl Hst].
    - split; [reflexivity | left; reflexivity].
    - unfold handle_eof. destruct Hst as [-> | [-> | ->]]; rewrite Hl; reflexivity. }
  split; [exact Hread |].
  unfold main. rewrite Hread. reflexivity.
Qed.

Lemma blank_csv_rejected_witness :
  read_csv sample_parse_float (String LF (String space (String tab (String CR ""))))
  = Raise (EmptyDataError "No columns to parse from file") /\
  main sample_float_str (fun _ => Ok not_a_dict) (read_csv sample_parse_float)
    None (Some (String LF (String space (String tab (String CR "")))))
    (mkWidgets None 0%float)
  = [st_error "❌ Error loading CSV file: No columns to parse from file"].
Proof.
  apply (blank_csv_rejected sample_float_str sample_parse_float
           (fun _ => Ok not_a_dict)
           (String LF (String space (String tab (String CR ""))))
           (mkWidgets None 0%float)).
  reflexivity.
Defined.

(** ** Missing comments in the word frequencies *)








Example word_freq_of_missing_comments :
  word_freq (fun _ => "") [NaN; NaN; NaN] = [("nan", 3)].
Proof. vm_compute. reflexivity. Qed.

(** ** The order of the selection *)

Lemma isin_perm (sel sel' : list value) (v : value) :
  Permutation sel sel' -> isin sel v = isin sel' v.
Proof.
  unfold isin. induction 1 as [| x l l' _ IH | x y l | l l' l'' _ IH1 _ IH2]; simpl.
  - reflexivity.
  - rewrite IH. reflexivity.
  - destruct (value_eqb v y), (value_eqb v x); reflexivity.
  - rewrite IH1. exact IH2.
Qed.

(** X18: the view depends on which labels are selected, not on the order
    in which the multiselect lists them. *)
Theorem selection_order_irrelevant (df : DataFrame) (sel sel' : list value)
    (m : float) :
  Permutation sel sel' ->
  apply_filters df (Some sel) m = apply_filters df (Some sel') m.
Proof.
  intros Hp. unfold apply_filters.
  assert (Hl : filter_by_label df (Some sel) = filter_by_label df (Some sel')).
  { rewrite !filter_by_label_spec. apply filter_ext. intros r.
    unfold label_selected.
    destruct sel as [| l sel], sel' as [| l' sel']; try reflexivity.
    - apply Permutation_nil in Hp. discriminate Hp.
    - apply Permutation_sym, Permutation_nil in Hp. discriminate Hp.
    - destruct (column_index "sentiment_label" (columns df)); [| reflexivity].
      apply isin_perm. exact Hp. }
  rewrite Hl. reflexivity.
Qed.

Lemma selection_order_irrelevant_witness :
  apply_filters sample_data (Some [Str "POSITIVE"; Str "NEGATIVE"]) 0.9%float
  = apply_filters sample_data (Some [Str "NEGATIVE"; Str "POSITIVE"]) 0.9%float.
Proof.
  apply (selection_order_irrelevant sample_data
           [Str "POSITIVE"; Str "NEGATIVE"] [Str "NEGATIVE"; Str "POSITIVE"]
           0.9%float).
  apply perm_swap.
Defined.

(** ** A JSON report without data *)



(** ** Re-loading the download of a view *)

Section Reload.

Variable float_str : float -> string.
Variable parse_float : string -> option float.





End Reload.

